(** * hybrid_md.refit: refitting of a GAP model on the fly

    A shallow embedding of [hybrid_md/refit.py]: the resolver [refit], the
    specialised strategy [refit_turbo_si_c] and the generic invoker
    [refit_generic].  The Python code is effectful (files, clock, imports, a
    child process) and fallible (exceptions), so it is embedded in a small
    state-and-exception monad over an explicit [world]; every observable
    effect is also appended to a chronological [trace]. *)

From Stdlib Require Import Floats.PrimFloat Floats.SpecFloat Floats.FloatOps.
From Stdlib Require Import Numbers.Cyclic.Int63.Uint63.
From Stdlib Require Import ZArith Ascii String List Lia.
From stdpp Require Import base gmap strings list pretty.
Import ListNotations.

Local Open Scope string_scope.
Local Open Scope list_scope.

(** ** Python strings: [str.split] and slicing of the result *)

Module PyStr.

(** [s.split(sep)] for a one-character separator: never returns the empty
    list; an empty [s] gives [[""]]. *)
Fixpoint split (sep : ascii) (s : string) : list string :=
  match s with
  | EmptyString => [EmptyString]
  | String c rest =>
      if Ascii.eqb c sep then EmptyString :: split sep rest
      else match split sep rest with
           | [] => [String c EmptyString]
           | hd :: tl => String c hd :: tl
           end
  end.

(** [sep.join(parts)] *)
Definition join (sep : string) (parts : list string) : string :=
  String.concat sep parts.

(** [l[:-1]] *)
Definition but_last (l : list string) : list string := removelast l.

(** [l[-1]] on the non-empty result of a split *)
Definition last_item (l : list string) : string := List.last l EmptyString.

(** [s.startswith(p)] *)
Definition startswith (p s : string) : bool := String.prefix p s.

(** A character does not occur in a string. *)
Fixpoint free_of (c : ascii) (s : string) : bool :=
  match s with
  | EmptyString => true
  | String d rest => negb (Ascii.eqb d c) && free_of c rest
  end.

End PyStr.

(** ** Exceptions *)

Inductive exn : Type :=
| RuntimeError (msg : string)
| AssertionError
| ModuleNotFoundError (name : string)
| ValueError (msg : string)
| TypeError (msg : string)
| KeyError (key : string)
| ZeroDivisionError
| FileNotFoundError (path : string)
| CalledProcessError (returncode : Z) (cmd : string) (output : string) (err : string).

(** The classes of Python's built-in exception hierarchy that these
    exceptions belong to, with each class's direct base. *)
Inductive exn_class : Type :=
| ClsBaseException | ClsException
| ClsRuntimeError | ClsAssertionError
| ClsImportError | ClsModuleNotFoundError
| ClsValueError | ClsTypeError
| ClsLookupError | ClsKeyError
| ClsArithmeticError | ClsZeroDivisionError
| ClsOSError | ClsFileNotFoundError
| ClsSubprocessError | ClsCalledProcessError.

#[global] Instance exn_class_eq_dec : EqDecision exn_class.
Proof. solve_decision. Defined.

Definition class_base (c : exn_class) : option exn_class :=
  match c with
  | ClsBaseException => None
  | ClsException => Some ClsBaseException
  | ClsRuntimeError | ClsAssertionError | ClsImportError | ClsValueError
  | ClsTypeError | ClsLookupError | ClsArithmeticError | ClsOSError
  | ClsSubprocessError => Some ClsException
  | ClsModuleNotFoundError => Some ClsImportError
  | ClsKeyError => Some ClsLookupError
  | ClsZeroDivisionError => Some ClsArithmeticError
  | ClsFileNotFoundError => Some ClsOSError
  | ClsCalledProcessError => Some ClsSubprocessError
  end.

(** [issubclass c d]; the hierarchy is three levels deep below
    [BaseException]. *)
Fixpoint issubclass_fuel (fuel : nat) (c d : exn_class) : bool :=
  if decide (c = d) then true
  else match fuel, class_base c with
       | S n, Some b => issubclass_fuel n b d
       | _, _ => false
       end.

Definition issubclass (c d : exn_class) : bool := issubclass_fuel 4 c d.

Definition class_of (e : exn) : exn_class :=
  match e with
  | RuntimeError _ => ClsRuntimeError
  | AssertionError => ClsAssertionError
  | ModuleNotFoundError _ => ClsModuleNotFoundError
  | ValueError _ => ClsValueError
  | TypeError _ => ClsTypeError
  | KeyError _ => ClsKeyError
  | ZeroDivisionError => ClsZeroDivisionError
  | FileNotFoundError _ => ClsFileNotFoundError
  | CalledProcessError _ _ _ _ => ClsCalledProcessError
  end.

(** [isinstance(e, c)], which is what an [except c:] clause tests. *)
Definition isinstance (e : exn) (c : exn_class) : bool :=
  issubclass (class_of e) c.

Inductive result (A : Type) : Type :=
| Ok (a : A)
| Raise (e : exn).
Arguments Ok {A} a.
Arguments Raise {A} e.

(** ** Structures, files and the world *)

(** An [ase.Atoms] object, as far as this module looks at it: [len(at)] is
    the number of atoms and [at.info] the per-structure labels. *)
Record Atoms : Type := mkAtoms {
  numbers : list Z;
  info : gmap string float
}.

(** The working directory: regular files by name, with their text. *)
Abbreviation files := (gmap string string).

Inductive event : Type :=
| EvImport (name : string)
| EvRead (path : string)
| EvPrevious (call : nat)
| EvMove (src dst : string)
| EvWrite (path : string) (text : string)
| EvRun (cmd : string) (cwd : files).

Record world : Type := mkWorld {
  fs : files;
  ticks : nat;
  prev_calls : nat;
  trace : list event
}.

Definition log (e : event) (w : world) : world :=
  mkWorld (fs w) (ticks w) (prev_calls w) (trace w ++ [e]).

Definition set_fs (f : files) (w : world) : world :=
  mkWorld f (ticks w) (prev_calls w) (trace w).

(** ** The state-and-exception monad *)

Definition M (A : Type) : Type := world -> result A * world.

Definition ret {A} (a : A) : M A := fun w => (Ok a, w).

Definition raise {A} (e : exn) : M A := fun w => (Raise e, w).

Definition bind {A B} (m : M A) (k : A -> M B) : M B :=
  fun w =>
    match m w with
    | (Ok a, w') => k a w'
    | (Raise e, w') => (Raise e, w')
    end.

(** [try: m  except <those e with handler e = Some h>: h] *)
Definition try_except {A} (m : M A) (handler : exn -> option (M A)) : M A :=
  fun w =>
    match m w with
    | (Ok a, w') => (Ok a, w')
    | (Raise e, w') =>
        match handler e with
        | Some h => h w'
        | None => (Raise e, w')
        end
    end.

Definition lift {A} (r : result A) : M A := fun w => (r, w).

Notation "'let*' x ':=' m 'in' k" := (bind m (fun x => k))
  (at level 10, x name, m at level 100, k at level 200).
Notation "'do' m 'in' k" := (bind m (fun _ => k))
  (at level 10, m at level 100, k at level 200).

(** ** Python values and the objects handed to this module *)

(** The [HybridMD] state object ([hybrid_md.state_objects], outside this
    module): the three members this module uses.  [previous_data k] is what
    the [k]-th call of [state.get_previous_data()] returns. *)
Record HybridMD : Type := mkHybridMD {
  xyz_filename : string;
  refit_function_name : option string;
  previous_data : nat -> list Atoms
}.

#[local] Set Warnings "-register-all".
Inductive pyobj : Type :=
| PyNone
| PyInt (z : Z)
| PyStr (s : string)
| PyFunc (f : HybridMD -> world -> result pyobj * world).

(** [callable(x)] *)
Definition callable (x : pyobj) : bool :=
  match x with
  | PyFunc _ => true
  | _ => false
  end.

(** The output of a finished child process and the working directory it
    left behind. *)
Record process : Type := mkProcess {
  returncode : Z;
  stdout : string;
  stderr : string;
  fs_after : files
}.

(** What lies outside this module and is taken as given: number formatting
    ([format_float] for a Python float, [format_float64] for a numpy scalar),
    numpy's sum of a float64 array with its own order of additions, the
    structure-file format of [ase.io], the system clock, the shell with the
    external fitting tool, and the importable modules with their
    attributes. *)
Record env : Type := mkEnv {
  format_float : float -> string;
  format_float64 : float -> string;
  np_add_reduce : list float -> float;
  xyz_parse : string -> result (list Atoms);
  xyz_print : list Atoms -> string;
  clock : nat -> float;
  shell : string -> files -> process;
  modules : gmap string (gmap string pyobj)
}.

(** ** numpy on a list of float64 *)

Local Open Scope float_scope.

Definition float_of_nat (n : nat) : float :=
  PrimFloat.of_uint63 (Uint63.of_Z (Z.of_nat n)).

(** [np.var(xs, ddof)]: the mean, the squared deviations from it, and their
    sum divided by [max(n - ddof, 0)]. *)
Definition np_var (E : env) (ddof : nat) (xs : list float) : float :=
  let arrmean := np_add_reduce E xs / float_of_nat (length xs) in
  let x := map (fun a => a - arrmean) xs in
  let x := map (fun d => d * d) x in
  np_add_reduce E x / float_of_nat (Nat.max (length xs - ddof) 0).

(** [np.std(xs)], whose [ddof] defaults to 0. *)
Definition np_std (E : env) (xs : list float) : float := PrimFloat.sqrt (np_var E 0 xs).

(** [at.info["QM_energy"] / len(at)] for a Python float label: a missing
    label is a [KeyError], a structure without atoms a
    [ZeroDivisionError]. *)
Definition per_atom_energy (at_ : Atoms) : result float :=
  match info at_ !! "QM_energy"%string with
  | None => Raise (KeyError "QM_energy")
  | Some e =>
      match length (numbers at_) with
      | O => Raise ZeroDivisionError
      | S _ as n => Ok (e / float_of_nat n)
      end
  end.

(** [[at.info["QM_energy"] / len(at) for at in frames_train]] *)
Fixpoint per_atom_energies (frames_train : list Atoms) : result (list float) :=
  match frames_train with
  | [] => Ok []
  | at_ :: rest =>
      match per_atom_energy at_ with
      | Raise e => Raise e
      | Ok x =>
          match per_atom_energies rest with
          | Raise e => Raise e
          | Ok xs => Ok (x :: xs)
          end
      end
  end.

(** [np.std([...]) / 4], lines 64 and 122 *)
Definition energy_delta (E : env) (frames_train : list Atoms) : result float :=
  match per_atom_energies frames_train with
  | Raise e => Raise e
  | Ok xs => Ok (np_std E xs / 4)
  end.

Local Close Scope float_scope.

(** ** The strings the module assembles *)

Definition gp_name : string := "GAP.xml".

(** [default_sigma] of [refit_generic], line 114 *)
Definition generic_default_sigma : string := "0.005 0.050 0.1 1.0".

(** [default_sigma] of [refit_turbo_si_c], line 90, under the comment
    "use lower kernel regularisation" *)
Definition turbo_default_sigma : string := "0.005 0.050 0.1 1.0".

Definition desc_str_2b (delta : string) : string :=
  "distance_Nb order=2 n_sparse=20 cutoff=4.5 cutoff_transition_width=1.0 "
  +:+ "compact_clusters covariance_type=ard_se theta_uniform=1.0 sparse_method=uniform "
  +:+ "f0=0.0 add_species=T delta=" +:+ delta.

(** The generic many-body block of [refit_generic]. *)
Definition desc_str_soap (delta : string) : string :=
  "soap n_sparse=200 n_max=8 l_max=4 cutoff=4.0 cutoff_transition_width=1.0 "
  +:+ "atom_sigma=0.5 add_species=True "
  +:+ "delta=" +:+ delta +:+ " covariance_type=dot_product zeta=4 sparse_method=cur_points".

Definition soap_n_sparse : Z := 200.

(** [soap_common] is a plain string, not an f-string: its doubled braces
    stay doubled. *)
Definition soap_common : string :=
  " n_species=2 species_Z={{6 14}} rcut_hard=4.5 rcut_soft=3.5 alpha_max={{10 10}} l_max=6 "
  +:+ "atom_sigma_r={{0.3 0.3}} atom_sigma_t={{0.3 0.3}} atom_sigma_r_scaling={{0.10 0.10}} "
  +:+ "atom_sigma_t_scaling={{0.10 0.10}} amplitude_scaling={{1. 1.}} radial_enhancement=1 "
  +:+ "basis=poly3gauss scaling_mode=polynomial central_weight={{1. 1.}} f0=0.0 "
  +:+ "covariance_type=dot_product zeta=4 sparse_method=cur_points add_species=F ".

(** The two-species many-body blocks of [refit_turbo_si_c]. *)
Definition desc_str_soap_turbo (delta : string) : string :=
  "soap_turbo central_index=1 n_sparse=" +:+ pretty soap_n_sparse
  +:+ " delta=" +:+ delta +:+ " " +:+ soap_common +:+ " : "
  +:+ "soap_turbo central_index=2 n_sparse=" +:+ pretty soap_n_sparse
  +:+ " delta=" +:+ delta +:+ " " +:+ soap_common +:+ " ".

Definition fit_str (default_sigma descriptor_strs : string) : string :=
  "gap_fit at_file=train.xyz gp_file=" +:+ gp_name +:+ " "
  +:+ "energy_parameter_name=QM_energy force_parameter_name=QM_forces"
  +:+ " virial_parameter_name=QM_virial "
  +:+ "sparse_jitter=1.0e-8 do_copy_at_file=F sparse_separate_file=F "
  +:+ "default_sigma={ " +:+ default_sigma +:+ " } e0_method=average "
  +:+ "gap={ " +:+ descriptor_strs +:+ " }".

Section Refit.

Context (E : env).

(** ** The library calls, as steps of the monad *)

(** [importlib.import_module(name)] without a package: an empty name is a
    [ValueError], a relative name a [TypeError], an unknown module a
    [ModuleNotFoundError]. *)
Definition importlib_import_module (name : string) : M (gmap string pyobj) :=
  fun w =>
    if decide (name = "") then (Raise (ValueError "Empty module name"), w)
    else if PyStr.startswith "." name then
      (Raise (TypeError ("the 'package' argument is required to perform a relative import for '"
                         +:+ name +:+ "'")), w)
    else match modules E !! name with
         | None => (Raise (ModuleNotFoundError name), w)
         | Some m => (Ok m, log (EvImport name) w)
         end.

(** [ase.io.read(path, ":")]: every frame of the file. *)
Definition ase_io_read (path : string) : M (list Atoms) :=
  fun w =>
    match fs w !! path with
    | None => (Raise (FileNotFoundError path), w)
    | Some text => (xyz_parse E text, log (EvRead path) w)
    end.

(** [ase.io.write(path, frames)]: creates or truncates the file. *)
Definition ase_io_write (path : string) (frames : list Atoms) : M unit :=
  fun w =>
    (Ok tt, log (EvWrite path (xyz_print E frames))
              (set_fs (<[path := xyz_print E frames]> (fs w)) w)).

(** [with open(path, "w") as file: file.write(text)] *)
Definition write_text (path text : string) : M unit :=
  fun w => (Ok tt, log (EvWrite path text) (set_fs (<[path := text]> (fs w)) w)).

(** [state.get_previous_data()] *)
Definition get_previous_data (state : HybridMD) : M (list Atoms) :=
  fun w =>
    (Ok (previous_data state (prev_calls w)),
     log (EvPrevious (prev_calls w))
       (mkWorld (fs w) (ticks w) (S (prev_calls w)) (trace w))).

(** [os.path.isfile(path)] *)
Definition os_path_isfile (path : string) : M bool :=
  fun w => (Ok (bool_decide (is_Some (fs w !! path))), w).

(** [shutil.move(src, dst)] of a regular file within the directory: a file
    already at [dst] is replaced. *)
Definition shutil_move (src dst : string) : M unit :=
  fun w =>
    match fs w !! src with
    | None => (Raise (FileNotFoundError src), w)
    | Some text =>
        (Ok tt, log (EvMove src dst) (set_fs (<[dst := text]> (delete src (fs w))) w))
    end.

(** [time()] *)
Definition time : M float :=
  fun w => (Ok (clock E (ticks w)),
            mkWorld (fs w) (S (ticks w)) (prev_calls w) (trace w)).

(** [subprocess.run(cmd, shell=True, capture_output=True, text=True,
    check=True)]: with [check], a non-zero exit status becomes a
    [CalledProcessError] holding both captured streams. *)
Definition subprocess_run (cmd : string) : M process :=
  fun w =>
    let proc := shell E cmd (fs w) in
    let w' := set_fs (fs_after proc) (log (EvRun cmd (fs w)) w) in
    if decide (returncode proc = 0%Z) then (Ok proc, w')
    else (Raise (CalledProcessError (returncode proc) cmd (stdout proc) (stderr proc)), w').

(** Calling a Python object with the state as its sole argument. *)
Definition call (f : pyobj) (state : HybridMD) : M pyobj :=
  match f with
  | PyFunc g => g state
  | _ => raise (TypeError "object is not callable")
  end.

(** ** The module's functions *)

Definition refit_generic (state : HybridMD)
    (descriptor_strs default_sigma : option string) : M pyobj :=
  let default_sigma :=
    match default_sigma with
    | None => generic_default_sigma
    | Some s => s
    end in
  let* from_file := ase_io_read (xyz_filename state) in
  let* previous := get_previous_data state in
  let frames_train := from_file ++ previous in
  let* descriptor_strs :=
    match descriptor_strs with
    | None =>
        let* delta := lift (energy_delta E frames_train) in
        ret (desc_str_2b (format_float64 E delta) +:+ " : "
             +:+ desc_str_soap (format_float64 E delta))
    | Some d => ret d
    end in
  let* model_exists := os_path_isfile gp_name in
  do (if model_exists : bool then
        let* now := time in
        shutil_move gp_name ("save__" +:+ format_float E now +:+ "__" +:+ gp_name)
      else ret tt) in
  do ase_io_write "train.xyz" frames_train in
  let* proc := subprocess_run (fit_str default_sigma descriptor_strs) in
  let* now := time in
  do write_text ("stdout_" +:+ gp_name +:+ "_at_" +:+ format_float E now +:+ "__.txt")
       (stdout proc) in
  let* now := time in
  do write_text ("stderr_" +:+ gp_name +:+ "_at_" +:+ format_float E now +:+ "__.txt")
       (stderr proc) in
  ret PyNone.

Definition refit_turbo_si_c (state : HybridMD) : M pyobj :=
  let* from_file := ase_io_read (xyz_filename state) in
  let* previous := get_previous_data state in
  let frames_train := from_file ++ previous in
  let* delta := lift (energy_delta E frames_train) in
  let descriptor_strs :=
    desc_str_2b (format_float64 E delta) +:+ " : "
    +:+ desc_str_soap_turbo (format_float64 E delta) in
  let default_sigma := turbo_default_sigma in
  refit_generic state (Some descriptor_strs) (Some default_sigma).

(** [".".join(name.split(".")[:-1])] *)
Definition module_name_of (refit_function_import : string) : string :=
  PyStr.join "." (PyStr.but_last (PyStr.split "." refit_function_import)).

(** [name.split(".")[-1]] *)
Definition function_name_of (refit_function_import : string) : string :=
  PyStr.last_item (PyStr.split "." refit_function_import).

Definition refit (state : HybridMD) : M pyobj :=
  match refit_function_name state with
  | None => refit_generic state None None
  | Some refit_function_import =>
      let module_name := module_name_of refit_function_import in
      let function_name := function_name_of refit_function_import in
      let* module :=
        try_except (importlib_import_module module_name)
          (fun e =>
             if isinstance e ClsModuleNotFoundError
             then Some (raise (RuntimeError
                                 ("Refit function's module not found: " +:+ module_name)))
             else None) in
      let* refit_function :=
        match module !! function_name with
        | Some attr =>
            if callable attr then ret attr else raise AssertionError
        | None =>
            raise (RuntimeError ("Refit function (" +:+ function_name
                                 +:+ ") not found in module " +:+ module_name))
        end in
      call refit_function state
  end.

End Refit.

(** ** What a call added to the trace, and what the fit is handed *)

(** The events of [w'] that were not yet in [w]. *)
Definition effects_since (w w' : world) : list event :=
  drop (length (trace w)) (trace w').

Definition is_read (e : event) : bool :=
  match e with EvRead _ => true | _ => false end.

Definition is_previous (e : event) : bool :=
  match e with EvPrevious _ => true | _ => false end.

Definition is_write (e : event) : bool :=
  match e with EvWrite _ _ => true | _ => false end.

Definition is_run (e : event) : bool :=
  match e with EvRun _ _ => true | _ => false end.

(** Events that change the working directory or start a process. *)
Definition is_side_effect (e : event) : bool :=
  match e with
  | EvMove _ _ | EvWrite _ _ | EvRun _ _ => true
  | EvImport _ | EvRead _ | EvPrevious _ => false
  end.

(** The name line 137 gives the previous model, read off the clock at [w]. *)
Definition backup_name (E : env) (w : world) : string :=
  "save__" +:+ format_float E (clock E (ticks w)) +:+ "__" +:+ gp_name.

(** The directory after the backup step of lines 136-137. *)
Definition after_backup (E : env) (w : world) : files :=
  match fs w !! gp_name with
  | Some model => <[backup_name E w := model]> (delete gp_name (fs w))
  | None => fs w
  end.

(** The directory in which the fitting tool is started: after the backup
    step and the write of line 140. *)
Definition fit_cwd (E : env) (w : world) (frames : list Atoms) : files :=
  <["train.xyz" := xyz_print E frames]> (after_backup E w).

Definition backup_events (E : env) (w : world) : list event :=
  match fs w !! gp_name with
  | Some _ => [EvMove gp_name (backup_name E w)]
  | None => []
  end.

Definition ticks_after_backup (w : world) : nat :=
  match fs w !! gp_name with
  | Some _ => S (ticks w)
  | None => ticks w
  end.

(** The events of one [refit_generic] call up to and including the start of
    the fitting tool. *)
Definition fit_events (E : env) (state : HybridMD) (w : world)
    (frames : list Atoms) (cmd : string) : list event :=
  [EvRead (xyz_filename state); EvPrevious (prev_calls w)]
  ++ backup_events E w
  ++ [EvWrite "train.xyz" (xyz_print E frames); EvRun cmd (fit_cwd E w frames)].

Definition stdout_name (E : env) (t : nat) : string :=
  "stdout_" +:+ gp_name +:+ "_at_" +:+ format_float E (clock E t) +:+ "__.txt".

Definition stderr_name (E : env) (t : nat) : string :=
  "stderr_" +:+ gp_name +:+ "_at_" +:+ format_float E (clock E t) +:+ "__.txt".

(** The descriptor string lines 120-133 arrive at. *)
Definition descriptor_is (E : env) (descriptor_strs : option string)
    (frames : list Atoms) (descr : string) : Prop :=
  match descriptor_strs with
  | Some d => descr = d
  | None =>
      exists delta,
        energy_delta E frames = Ok delta /\
        descr = desc_str_2b (format_float64 E delta) +:+ " : "
                +:+ desc_str_soap (format_float64 E delta)
  end.

Definition sigma_or_default (default_sigma : option string) : string :=
  match default_sigma with
  | Some s => s
  | None => "0.005 0.050 0.1 1.0"
  end.

(** The world after lines 136-137. *)
Definition backed_up (E : env) (w : world) : world :=
  match fs w !! gp_name with
  | Some _ =>
      mkWorld (after_backup E w) (S (ticks w)) (prev_calls w)
        (trace w ++ [EvMove gp_name (backup_name E w)])
  | None => w
  end.

(** The world in which line 153 starts the fitting tool. *)
Definition ready_to_fit (E : env) (state : HybridMD) (w : world) (frames : list Atoms) : world :=
  mkWorld (fit_cwd E w frames) (ticks_after_backup w) (S (prev_calls w))
    (trace w ++ [EvRead (xyz_filename state); EvPrevious (prev_calls w)]
     ++ backup_events E w ++ [EvWrite "train.xyz" (xyz_print E frames)]).

(** Nothing in the working directory changed and no process was started
    between [w] and [w1]. *)
Definition untouched (w w1 : world) : Prop :=
  fs w1 = fs w /\ List.filter is_side_effect (effects_since w w1) = [].

Definition writes_to (path : string) (e : event) : bool :=
  match e with
  | EvWrite p _ => bool_decide (p = path)
  | _ => false
  end.

(** The two capture files of lines 158-161, written only after a fit that
    exited with status zero; [t] is the number of clock readings so far. *)
Definition capture_events (E : env) (t : nat) (proc : process) : list event :=
  if decide (returncode proc = 0%Z) then
    [EvWrite (stdout_name E t) (stdout proc);
     EvWrite (stderr_name E (S t)) (stderr proc)]
  else [].

(** The world after lines 63-64 of [refit_turbo_si_c] have read the inputs
    a first time. *)
Definition after_first_reading (state : HybridMD) (w : world) : world :=
  mkWorld (fs w) (ticks w) (S (prev_calls w))
    (trace w ++ [EvRead (xyz_filename state); EvPrevious (prev_calls w)]).

(** The descriptor string [refit_turbo_si_c] builds from [delta]. *)
Definition turbo_descriptors (E : env) (delta : float) : string :=
  desc_str_2b (format_float64 E delta) +:+ " : "
  +:+ desc_str_soap_turbo (format_float64 E delta).

(** The descriptor string [refit_generic] builds from [delta]. *)
Definition generic_descriptors (E : env) (delta : float) : string :=
  desc_str_2b (format_float64 E delta) +:+ " : "
  +:+ desc_str_soap (format_float64 E delta).

Definition is_move (e : event) : bool :=
  match e with EvMove _ _ => true | _ => false end.

(** Between [w] and [w'] the training file was written once, with [frames],
    and the one process that was started found it so. *)
Definition trained_on (E : env) (w w' : world) (frames : list Atoms) : Prop :=
  List.filter (writes_to "train.xyz") (effects_since w w')
    = [EvWrite "train.xyz" (xyz_print E frames)]
  /\ exists cmd cwd,
       List.filter is_run (effects_since w w') = [EvRun cmd cwd]
       /\ cwd !! "train.xyz" = Some (xyz_print E frames).

(** The command up to the sigma: the tool and its nine fixed parameters,
    except [e0_method], which follows the sigma. *)
Definition fixed_parameters : string :=
  "gap_fit at_file=train.xyz gp_file=GAP.xml "
  +:+ "energy_parameter_name=QM_energy force_parameter_name=QM_forces "
  +:+ "virial_parameter_name=QM_virial sparse_jitter=1.0e-8 "
  +:+ "do_copy_at_file=F sparse_separate_file=F ".

(** ** The statistic in the words of the specification *)

Local Open Scope float_scope.

(** The mean of [xs], with [sum] for the sum. *)
Definition mean (sum : list float -> float) (xs : list float) : float :=
  sum xs / float_of_nat (length xs).

(** The population standard deviation: the root of the mean squared
    deviation from the mean (divisor [n]). *)
Definition population_std (sum : list float -> float) (xs : list float) : float :=
  PrimFloat.sqrt
    (mean sum (map (fun x => (x - mean sum xs) * (x - mean sum xs)) xs)).

(** The sample standard deviation (divisor [n - 1]), for comparison. *)
Definition sample_std (sum : list float -> float) (xs : list float) : float :=
  PrimFloat.sqrt
    (sum (map (fun x => (x - mean sum xs) * (x - mean sum xs)) xs)
     / float_of_nat (length xs - 1)).

(** [sum] adds the two elements of a two-element array as floats are added
    (left open where that sum is a zero, whose sign may differ). *)
Definition sums_pairs (sum : list float -> float) : Prop :=
  forall x y : float,
    PrimFloat.eqb (x + y) 0 = false -> sum [x; y] = (x + y)%float.

(** [x] is the energy label of [at_] divided by its number of atoms. *)
Definition energy_per_atom (at_ : Atoms) (x : float) : Prop :=
  exists e, info at_ !! "QM_energy"%string = Some e /\
            numbers at_ <> [] /\
            x = e / float_of_nat (length (numbers at_)).

Local Close Scope float_scope.

(** ** A concrete environment to run the module in *)

Module Demo.

(** Divide the twos out of [m * 2^e] while [e] is negative. *)
Fixpoint reduce (fuel : nat) (m e : Z) : Z * Z :=
  match fuel with
  | O => (m, e)
  | S n => if (e <? 0)%Z && Z.even m then reduce n (m / 2)%Z (e + 1)%Z else (m, e)
  end.

Fixpoint zeros (n : nat) : string :=
  match n with
  | O => ""
  | S k => "0" +:+ zeros k
  end.

(** The exact decimal expansion of a float; for floats with a short
    expansion it is what Python prints. *)
Definition format_exact (f : float) : string :=
  match Prim2SF f with
  | S754_zero s => if s then "-0.0" else "0.0"
  | S754_infinity s => if s then "-inf" else "inf"
  | S754_nan => "nan"
  | S754_finite s m e =>
      let '(m, e) := reduce 64 (Z.pos m) e in
      let sign := if s then "-" else "" in
      if (0 <=? e)%Z then sign +:+ pretty (m * 2 ^ e)%Z +:+ ".0"
      else
        let frac := pretty ((m mod 2 ^ (- e)) * 5 ^ (- e))%Z in
        sign +:+ pretty (m / 2 ^ (- e))%Z +:+ "."
        +:+ zeros (Z.to_nat (- e) - String.length frac) +:+ frac
  end.

Definition structure (energy : float) : Atoms :=
  mkAtoms [14%Z; 6%Z] {["QM_energy" := energy]}.

Definition frame_a : Atoms := structure (-2.0)%float.
Definition frame_b : Atoms := structure (-4.0)%float.
Definition frame_c : Atoms := structure (-3.0)%float.

Definition print_frame (a : Atoms) : string :=
  pretty (length (numbers a)) +:+ " atoms"
  +:+ match info a !! "QM_energy" with
      | Some e => " QM_energy=" +:+ format_exact e
      | None => ""
      end +:+ ";".

Definition print_frames (frames : list Atoms) : string :=
  String.concat "" (map print_frame frames).

(** A reader that knows two files. *)
Definition parse_frames (text : string) : result (list Atoms) :=
  if decide (text = print_frames [frame_a]) then Ok [frame_a]
  else if decide (text = "") then Ok []
  else Raise (ValueError "not a structure file").

(** A fitting tool that exits with the given status; on status zero it
    leaves a model behind. *)
Definition fitting_tool (status : Z) (cmd : string) (cwd : files) : process :=
  if decide (status = 0%Z) then
    mkProcess 0 "fit finished" ""
      (<["GAP.xml" := "model fitted on " +:+ default "" (cwd !! "train.xyz")]> cwd)
  else mkProcess status "" "gap_fit: fit failed" cwd.

(** A sum that starts from the first element and adds the others in
    order. *)
Definition add_reduce (xs : list float) : float :=
  match xs with
  | [] => 0%float
  | x :: rest => fold_left PrimFloat.add rest x
  end.

Definition wall_clock (k : nat) : float :=
  (1700000000.0 + float_of_nat k)%float.

Definition base_env (status : Z) : env :=
  mkEnv format_exact format_exact add_reduce parse_frames print_frames wall_clock
    (fitting_tool status) ∅.

(** The module [hybrid_md.refit] itself, with its three functions other than
    [refit] and its docstring. *)
Definition hybrid_md_refit (status : Z) : gmap string pyobj :=
  {[ "refit_turbo_si_c" := PyFunc (refit_turbo_si_c (base_env status));
     "refit_generic" := PyFunc (fun state => refit_generic (base_env status) state None None);
     "__doc__" := PyStr "Refitting of model on the fly" ]}.

Definition environment (status : Z) : env :=
  mkEnv format_exact format_exact add_reduce parse_frames print_frames wall_clock
    (fitting_tool status) {[ "hybrid_md.refit" := hybrid_md_refit status ]}.

(** The fit succeeds in [E], and fails with status 1 in [E_fail]. *)
Definition E : env := environment 0.
Definition E_fail : env := environment 1.

(** As [E], on a clock so coarse that it shows the same second throughout. *)
Definition E_coarse : env :=
  mkEnv format_exact format_exact add_reduce parse_frames print_frames
    (fun _ => 1700000000.0%float) (fitting_tool 0)
    {[ "hybrid_md.refit" := hybrid_md_refit 0 ]}.

(** The first call of [get_previous_data] returns one structure, later calls
    two. *)
Definition earlier_frames (call : nat) : list Atoms :=
  match call with
  | O => [frame_b]
  | S _ => [frame_b; frame_c]
  end.

Definition state_with (name : option string) : HybridMD :=
  mkHybridMD "frames.xyz" name earlier_frames.

Definition st_default : HybridMD := state_with None.
Definition st_empty : HybridMD := state_with (Some "").
Definition st_turbo : HybridMD := state_with (Some "hybrid_md.refit.refit_turbo_si_c").
Definition st_docstring : HybridMD := state_with (Some "hybrid_md.refit.__doc__").
Definition st_no_function : HybridMD := state_with (Some "hybrid_md.refit.refit_fast").
Definition st_no_module : HybridMD := state_with (Some "my_fits.refit_fast").

(** A fresh directory with the structure file only. *)
Definition w0 : world :=
  mkWorld {[ "frames.xyz" := print_frames [frame_a] ]} 0 0 [].

(** A directory with a current model, an older backup that carries the
    time stamp the clock shows next, and a stale training file. *)
Definition w_model : world :=
  mkWorld {[ "frames.xyz" := print_frames [frame_a];
             "GAP.xml" := "model 2";
             "save__1700000000.0__GAP.xml" := "model 1";
             "train.xyz" := "stale" ]} 0 0 [].

(** A directory with the structure file and a first model. *)
Definition w_first : world :=
  mkWorld {[ "frames.xyz" := print_frames [frame_a]; "GAP.xml" := "model 1" ]} 0 0 [].

(** A structure without the energy label. *)
Definition frame_unlabelled : Atoms := mkAtoms [14%Z; 6%Z] ∅.

(** A state whose earlier data lacks the energy label. *)
Definition st_unlabelled : HybridMD :=
  mkHybridMD "frames.xyz" None (fun _ => [frame_unlabelled]).

(** A state with an empty structure file and no earlier data. *)
Definition st_no_frames : HybridMD :=
  mkHybridMD "empty.xyz" None (fun _ => []).

(** A state that names a structure file the directory does not have. *)
Definition st_missing_file : HybridMD :=
  mkHybridMD "lost.xyz" None earlier_frames.

(** A function name without a module path, and a relative one. *)
Definition st_bare : HybridMD := state_with (Some "refit_fast").
Definition st_relative : HybridMD := state_with (Some ".refit.refit_fast").

(** A directory with an empty structure file. *)
Definition w_empty : world :=
  mkWorld {[ "empty.xyz" := "" ]} 0 0 [].

(** A directory whose structure file is not in the format. *)
Definition w_garbled : world :=
  mkWorld {[ "frames.xyz" := "no frames here"; "GAP.xml" := "model 1" ]} 0 0 [].

End Demo.

(** The fitting tool leaves the file [p] as it finds it. *)
Definition tool_keeps (E : env) (p : string) : Prop :=
  forall cmd cwd, fs_after (shell E cmd cwd) !! p = cwd !! p.

(** Projections of explicit worlds and nested appends of traces. *)
Ltac norm_trace :=
  repeat (progress cbn [fs ticks prev_calls trace app] || rewrite <- app_assoc).

Section Runs.

Context (E : env).

Lemma effects_since_app (w : world) (l : list event) (w' : world) :
  trace w' = trace w ++ l -> effects_since w w' = l.
Proof.
  intros H. unfold effects_since. rewrite H. by rewrite drop_app_length.
Qed.

Lemma bind_ok {A B} (m : M A) (k : A -> M B) (w w' : world) (a : A) :
  m w = (Ok a, w') -> bind m k w = k a w'.
Proof. intros H. unfold bind. by rewrite H. Qed.

Lemma bind_raise {A B} (m : M A) (k : A -> M B) (w w' : world) (e : exn) :
  m w = (Raise e, w') -> bind m k w = (Raise e, w').
Proof. intros H. unfold bind. by rewrite H. Qed.

(** Lines 120-133 leave the world alone. *)
Lemma descriptor_step (d : option string) (frames : list Atoms) (descr : string)
    (w : world) :
  descriptor_is E d frames descr ->
  (match d with
   | None =>
       let* delta := lift (energy_delta E frames) in
       ret (desc_str_2b (format_float64 E delta) +:+ " : "
            +:+ desc_str_soap (format_float64 E delta))
   | Some x => ret x
   end) w = (Ok descr, w).
Proof.
  destruct d as [x|]; cbn [descriptor_is].
  - by intros ->.
  - intros (delta & Hdelta & ->). unfold bind, lift. by rewrite Hdelta.
Qed.

Lemma backup_step (w : world) :
  (let* model_exists := os_path_isfile gp_name in
   if model_exists : bool then
     let* now := time E in
     shutil_move gp_name ("save__" +:+ format_float E now +:+ "__" +:+ gp_name)
   else ret tt) w = (Ok tt, backed_up E w).
Proof.
  unfold bind, os_path_isfile, backed_up, after_backup.
  destruct (fs w !! gp_name) as [model|] eqn:Hmodel.
  - rewrite bool_decide_eq_true_2 by eauto.
    unfold time, shutil_move. cbn [fs]. by rewrite Hmodel.
  - rewrite bool_decide_eq_false_2 by (by intros [? ?]). done.
Qed.

Lemma bind_assoc {A B C} (m : M A) (k : A -> M B) (h : B -> M C) (w : world) :
  bind (bind m k) h w = bind m (fun a => bind (k a) h) w.
Proof. unfold bind. destruct (m w) as [[a|e] w']; done. Qed.

(** Lines 113-140: reading, the descriptor, the backup and the training
    file, for readable inputs. *)
Lemma refit_generic_prepares (state : HybridMD) (d s : option string) (w : world)
    (text : string) (from_file : list Atoms) (descr : string) :
  let frames := from_file ++ previous_data state (prev_calls w) in
  fs w !! xyz_filename state = Some text ->
  xyz_parse E text = Ok from_file ->
  descriptor_is E d frames descr ->
  refit_generic E state d s w =
    (let* proc := subprocess_run E (fit_str (sigma_or_default s) descr) in
     let* now := time E in
     do write_text ("stdout_" +:+ gp_name +:+ "_at_" +:+ format_float E now +:+ "__.txt")
          (stdout proc) in
     let* now := time E in
     do write_text ("stderr_" +:+ gp_name +:+ "_at_" +:+ format_float E now +:+ "__.txt")
          (stderr proc) in
     ret PyNone) (ready_to_fit E state w frames).
Proof.
  intros frames Hfile Hparse Hd. unfold refit_generic.
  erewrite bind_ok; [| unfold ase_io_read; rewrite Hfile, Hparse; reflexivity].
  erewrite bind_ok; [| reflexivity].
  cbn [prev_calls log].
  erewrite bind_ok; [| apply descriptor_step, Hd].
  rewrite <- bind_assoc.
  erewrite bind_ok; [| apply backup_step].
  erewrite bind_ok; [| reflexivity].
  f_equal. unfold ready_to_fit, backed_up, log, set_fs, fit_cwd, after_backup,
    ticks_after_backup, backup_events, backup_name.
  cbn [fs ticks prev_calls trace].
  destruct (fs w !! gp_name) as [model|] eqn:Hmodel;
    cbn [fs ticks prev_calls trace]; rewrite ?Hmodel, <- ?app_assoc; reflexivity.
Qed.

(** A call whose inputs are readable and whose fitting process exits with a
    non-zero status. *)
Lemma refit_generic_fit_fails (state : HybridMD) (d s : option string) (w : world)
    (text : string) (from_file : list Atoms) (descr : string) :
  let frames := from_file ++ previous_data state (prev_calls w) in
  let cmd := fit_str (sigma_or_default s) descr in
  let proc := shell E cmd (fit_cwd E w frames) in
  fs w !! xyz_filename state = Some text ->
  xyz_parse E text = Ok from_file ->
  descriptor_is E d frames descr ->
  returncode proc <> 0%Z ->
  refit_generic E state d s w =
    (Raise (CalledProcessError (returncode proc) cmd (stdout proc) (stderr proc)),
     mkWorld (fs_after proc) (ticks_after_backup w) (S (prev_calls w))
       (trace w ++ fit_events E state w frames cmd)).
Proof.
  intros frames cmd proc Hfile Hparse Hd Hrc.
  rewrite (refit_generic_prepares state d s w text from_file descr Hfile Hparse Hd).
  fold frames cmd. erewrite bind_raise; [reflexivity|].
  unfold subprocess_run. cbn [ready_to_fit fs]. fold proc.
  destruct (decide (returncode proc = 0%Z)); [done|].
  unfold log, set_fs, fit_events, ready_to_fit. norm_trace. reflexivity.
Qed.

(** A call whose inputs are readable and whose fitting process exits with
    status zero. *)
Lemma refit_generic_fit_succeeds (state : HybridMD) (d s : option string) (w : world)
    (text : string) (from_file : list Atoms) (descr : string) :
  let frames := from_file ++ previous_data state (prev_calls w) in
  let cmd := fit_str (sigma_or_default s) descr in
  let proc := shell E cmd (fit_cwd E w frames) in
  let t := ticks_after_backup w in
  fs w !! xyz_filename state = Some text ->
  xyz_parse E text = Ok from_file ->
  descriptor_is E d frames descr ->
  returncode proc = 0%Z ->
  refit_generic E state d s w =
    (Ok PyNone,
     mkWorld (<[stderr_name E (S t) := stderr proc]>
                (<[stdout_name E t := stdout proc]> (fs_after proc)))
       (S (S t)) (S (prev_calls w))
       (trace w ++ fit_events E state w frames cmd
        ++ [EvWrite (stdout_name E t) (stdout proc);
            EvWrite (stderr_name E (S t)) (stderr proc)])).
Proof.
  intros frames cmd proc t Hfile Hparse Hd Hrc.
  rewrite (refit_generic_prepares state d s w text from_file descr Hfile Hparse Hd).
  fold frames cmd.
  erewrite bind_ok; cycle 1.
  { unfold subprocess_run. cbn [ready_to_fit fs]. fold proc.
    destruct (decide (returncode proc = 0%Z)); [reflexivity|done]. }
  unfold bind, time, write_text, ret, log, set_fs, fit_events, stdout_name, stderr_name,
    ready_to_fit.
  norm_trace. reflexivity.
Qed.

(** Lines 63-92: [refit_turbo_si_c] reads the inputs once for [delta] and
    then hands over to [refit_generic], which starts from the world the
    first reading left. *)
Lemma refit_turbo_si_c_delegates (state : HybridMD) (w : world)
    (text : string) (from_file : list Atoms) (delta : float) :
  fs w !! xyz_filename state = Some text ->
  xyz_parse E text = Ok from_file ->
  energy_delta E (from_file ++ previous_data state (prev_calls w)) = Ok delta ->
  refit_turbo_si_c E state w =
    refit_generic E state
      (Some (desc_str_2b (format_float64 E delta) +:+ " : "
             +:+ desc_str_soap_turbo (format_float64 E delta)))
      (Some turbo_default_sigma)
      (mkWorld (fs w) (ticks w) (S (prev_calls w))
         (trace w ++ [EvRead (xyz_filename state); EvPrevious (prev_calls w)])).
Proof.
  intros Hfile Hparse Hdelta. unfold refit_turbo_si_c.
  erewrite bind_ok; [| unfold ase_io_read; rewrite Hfile, Hparse; reflexivity].
  erewrite bind_ok; [| reflexivity].
  cbn [prev_calls log fs ticks trace].
  erewrite bind_ok; [| unfold lift; rewrite Hdelta; reflexivity].
  unfold log. norm_trace. reflexivity.
Qed.

End Runs.

(** ** Splitting a dotted name *)

Section Dotted.

Lemma split_cons (sep c : ascii) (rest : string) :
  PyStr.split sep (String c rest) =
    if Ascii.eqb c sep then EmptyString :: PyStr.split sep rest
    else match PyStr.split sep rest with
         | [] => [String c EmptyString]
         | hd :: tl => String c hd :: tl
         end.
Proof. reflexivity. Qed.

Lemma split_not_nil (sep : ascii) (s : string) : PyStr.split sep s <> [].
Proof.
  destruct s as [|c rest]; [done|]. rewrite split_cons.
  destruct (Ascii.eqb c sep); [done|]. by destruct (PyStr.split sep rest).
Qed.

Lemma split_free (sep : ascii) (f : string) :
  PyStr.free_of sep f = true -> PyStr.split sep f = [f].
Proof.
  induction f as [|c f IH]; [done|]. intros Hf. rewrite split_cons.
  change (negb (Ascii.eqb c sep) && PyStr.free_of sep f = true) in Hf.
  apply andb_true_iff in Hf as [Hc Hf]. apply negb_true_iff in Hc.
  by rewrite Hc, (IH Hf).
Qed.

Lemma split_app_last (sep : ascii) (m f : string) :
  PyStr.free_of sep f = true ->
  PyStr.split sep (m +:+ String sep f) = PyStr.split sep m ++ [f].
Proof.
  intros Hf. induction m as [|c m IH].
  - change ("" +:+ String sep f) with (String sep f).
    by rewrite split_cons, Ascii.eqb_refl, (split_free _ _ Hf).
  - change (String c m +:+ String sep f) with (String c (m +:+ String sep f)).
    rewrite !split_cons, IH.
    destruct (Ascii.eqb c sep); [done|].
    pose proof (split_not_nil sep m) as Hne.
    by destruct (PyStr.split sep m).
Qed.

Lemma join_split (sep : ascii) (m : string) :
  PyStr.join (String sep "") (PyStr.split sep m) = m.
Proof.
  unfold PyStr.join. induction m as [|c m IH]; [done|].
  rewrite split_cons.
  pose proof (split_not_nil sep m) as Hne.
  destruct (Ascii.eqb c sep) eqn:Hc.
  - apply Ascii.eqb_eq in Hc as ->.
    destruct (PyStr.split sep m) as [|hd tl]; [done|].
    change (String.concat (String sep "") ("" :: hd :: tl))
      with (String sep (String.concat (String sep "") (hd :: tl))).
    by rewrite IH.
  - destruct (PyStr.split sep m) as [|hd tl]; [done|].
    rewrite <- IH. by destruct tl.
Qed.

(** A name [m.f] whose last segment [f] has no dot splits into the module
    path [m] and the function name [f]. *)
Lemma module_name_of_dotted (m f : string) :
  PyStr.free_of "." f = true -> module_name_of (m +:+ "." +:+ f) = m.
Proof.
  intros Hf. unfold module_name_of, PyStr.but_last.
  change ("." +:+ f) with (String "." f).
  rewrite (split_app_last _ _ _ Hf), removelast_last. apply join_split.
Qed.

Lemma function_name_of_dotted (m f : string) :
  PyStr.free_of "." f = true -> function_name_of (m +:+ "." +:+ f) = f.
Proof.
  intros Hf. unfold function_name_of, PyStr.last_item.
  change ("." +:+ f) with (String "." f).
  by rewrite (split_app_last _ _ _ Hf), last_last.
Qed.

End Dotted.

(** ** The resolver *)

Section Resolver.

Context (E : env).

Lemma isinstance_module_not_found (name : string) :
  isinstance (ModuleNotFoundError name) ClsModuleNotFoundError = true.
Proof. reflexivity. Qed.

(** The import step of [refit] when the module is found. *)
Lemma import_found (mn : string) (m : gmap string pyobj) (w w1 : world) :
  importlib_import_module E mn w = (Ok m, w1) ->
  try_except (importlib_import_module E mn)
    (fun e =>
       if isinstance e ClsModuleNotFoundError
       then Some (raise (RuntimeError ("Refit function's module not found: " +:+ mn)))
       else None) w = (Ok m, w1).
Proof. intros H. unfold try_except. by rewrite H. Qed.

(** The import step of [refit] when the module is not found. *)
Lemma import_not_found (mn missing : string) (w w1 : world) :
  importlib_import_module E mn w = (Raise (ModuleNotFoundError missing), w1) ->
  try_except (importlib_import_module E mn)
    (fun e =>
       if isinstance e ClsModuleNotFoundError
       then Some (raise (RuntimeError ("Refit function's module not found: " +:+ mn)))
       else None) w
  = (Raise (RuntimeError ("Refit function's module not found: " +:+ mn)), w1).
Proof. intros H. unfold try_except. by rewrite H. Qed.

(** An import changes no file and starts no process. *)
Lemma import_world (mn : string) (r : result (gmap string pyobj)) (w w1 : world) :
  importlib_import_module E mn w = (r, w1) ->
  fs w1 = fs w /\ List.filter is_side_effect (effects_since w w1) = [].
Proof.
  unfold importlib_import_module. intros H.
  assert (Hsame : effects_since w w = []).
  { apply effects_since_app. by rewrite app_nil_r. }
  repeat case_match; simplify_eq; try by rewrite Hsame.
  split; [done|]. by rewrite (effects_since_app w [EvImport mn]).
Qed.

End Resolver.

(** C1 (as the code has it): for a state with a refit function name, [refit]
    raises [RuntimeError] when importing the module path raises
    [ModuleNotFoundError] and when the imported module lacks the named
    attribute, and raises [AssertionError] when the attribute exists but is
    not callable; in each case no file has been written or moved and no
    process started when the error is raised. *)
Theorem C1_resolver_failures (E : env) (state : HybridMD) (w : world) (name : string) :
  refit_function_name state = Some name ->
  (forall missing w1,
     importlib_import_module E (module_name_of name) w
       = (Raise (ModuleNotFoundError missing), w1) ->
     refit E state w
       = (Raise (RuntimeError ("Refit function's module not found: "
                               +:+ module_name_of name)), w1)
     /\ untouched w w1)
  /\ (forall m w1,
        importlib_import_module E (module_name_of name) w = (Ok m, w1) ->
        m !! function_name_of name = None ->
        refit E state w
          = (Raise (RuntimeError ("Refit function (" +:+ function_name_of name
                                  +:+ ") not found in module " +:+ module_name_of name)), w1)
        /\ untouched w w1)
  /\ (forall m w1 attr,
        importlib_import_module E (module_name_of name) w = (Ok m, w1) ->
        m !! function_name_of name = Some attr ->
        callable attr = false ->
        refit E state w = (Raise AssertionError, w1) /\ untouched w w1).
Proof.
  intros Hname. unfold refit. rewrite Hname. cbv zeta.
  split; [|split].
  - intros missing w1 Himp. split; [|exact (import_world E _ _ _ _ Himp)].
    erewrite bind_raise; [reflexivity|]. by apply (import_not_found E _ missing).
  - intros m w1 Himp Hattr. split; [|exact (import_world E _ _ _ _ Himp)].
    erewrite bind_ok; [|by apply import_found].
    rewrite Hattr. erewrite bind_raise; reflexivity.
  - intros m w1 attr Himp Hattr Hcall. split; [|exact (import_world E _ _ _ _ Himp)].
    erewrite bind_ok; [|by apply import_found].
    rewrite Hattr, Hcall. erewrite bind_raise; reflexivity.
Qed.

Lemma C1_resolver_failures_witness :
  refit Demo.E Demo.st_no_module Demo.w_model
    = (Raise (RuntimeError "Refit function's module not found: my_fits"), Demo.w_model)
  /\ refit Demo.E Demo.st_no_function Demo.w_model
       = (Raise (RuntimeError
                   "Refit function (refit_fast) not found in module hybrid_md.refit"),
          log (EvImport "hybrid_md.refit") Demo.w_model)
  /\ refit Demo.E Demo.st_docstring Demo.w_model
       = (Raise AssertionError, log (EvImport "hybrid_md.refit") Demo.w_model).
Proof.
  assert (Hmn : module_name_of "hybrid_md.refit.refit_fast" = "hybrid_md.refit")
    by (vm_compute; reflexivity).
  assert (Hfn : function_name_of "hybrid_md.refit.refit_fast" = "refit_fast")
    by (vm_compute; reflexivity).
  assert (Hmn' : module_name_of "hybrid_md.refit.__doc__" = "hybrid_md.refit")
    by (vm_compute; reflexivity).
  assert (Hfn' : function_name_of "hybrid_md.refit.__doc__" = "__doc__")
    by (vm_compute; reflexivity).
  split; [|split].
  - pose proof (proj1 (C1_resolver_failures Demo.E Demo.st_no_module Demo.w_model
                         "my_fits.refit_fast" eq_refl) "my_fits" Demo.w_model) as H.
    replace (module_name_of "my_fits.refit_fast") with "my_fits" in H
      by (vm_compute; reflexivity).
    apply H. reflexivity.
  - pose proof (proj1 (proj2 (C1_resolver_failures Demo.E Demo.st_no_function Demo.w_model
                                "hybrid_md.refit.refit_fast" eq_refl))
                  (Demo.hybrid_md_refit 0)
                  (log (EvImport "hybrid_md.refit") Demo.w_model)) as H.
    rewrite Hmn, Hfn in H. apply H; [reflexivity | vm_compute; reflexivity].
  - pose proof (proj2 (proj2 (C1_resolver_failures Demo.E Demo.st_docstring Demo.w_model
                                "hybrid_md.refit.__doc__" eq_refl))
                  (Demo.hybrid_md_refit 0)
                  (log (EvImport "hybrid_md.refit") Demo.w_model)
                  (PyStr "Refitting of model on the fly")) as H.
    rewrite Hmn', Hfn' in H. apply H; [reflexivity | vm_compute; reflexivity | reflexivity].
Defined.

(** C1 as stated fails: with [hybrid_md.refit.__doc__] as the name, an
    attribute that exists and is not callable, [refit] raises
    [AssertionError], while a missing module gives [RuntimeError]; the only
    classes the two errors share are [Exception] and [BaseException], so no
    error type of its own covers the three cases. *)
Lemma C1_counterexample :
  fst (refit Demo.E Demo.st_docstring Demo.w0) = Raise AssertionError
  /\ fst (refit Demo.E Demo.st_no_module Demo.w0)
       = Raise (RuntimeError "Refit function's module not found: my_fits")
  /\ class_of AssertionError
       <> class_of (RuntimeError "Refit function's module not found: my_fits")
  /\ forall c : exn_class,
       isinstance AssertionError c = true ->
       isinstance (RuntimeError "Refit function's module not found: my_fits") c = true ->
       c = ClsException \/ c = ClsBaseException.
Proof.
  split; [vm_compute; reflexivity|].
  split; [vm_compute; reflexivity|].
  split; [discriminate|].
  intros c. destruct c; vm_compute; intros; try discriminate; auto.
Qed.

(** C2: for a state whose refit function name is [m.f], with [f] free of
    dots, [m] an importable absolute module path and [f] a function of that
    module, [refit] is one call of exactly that function on the state: it
    has the function's result and leaves the world the function leaves. *)
Theorem C2_resolved_function_called (E : env) (state : HybridMD) (w : world)
    (module_path function_name : string) (module : gmap string pyobj)
    (f : HybridMD -> M pyobj) :
  refit_function_name state = Some (module_path +:+ "." +:+ function_name) ->
  PyStr.free_of "." function_name = true ->
  module_path <> "" ->
  PyStr.startswith "." module_path = false ->
  modules E !! module_path = Some module ->
  module !! function_name = Some (PyFunc f) ->
  refit E state w = f state (log (EvImport module_path) w).
Proof.
  intros Hname Hfree Hne Habs Hmod Hattr. unfold refit. rewrite Hname. cbv zeta.
  rewrite (module_name_of_dotted _ _ Hfree), (function_name_of_dotted _ _ Hfree).
  erewrite bind_ok; cycle 1.
  { apply import_found. unfold importlib_import_module.
    rewrite decide_False by done. rewrite Habs, Hmod. reflexivity. }
  rewrite Hattr. reflexivity.
Qed.

Lemma C2_resolved_function_called_witness :
  refit Demo.E Demo.st_turbo Demo.w0
  = refit_turbo_si_c (Demo.base_env 0) Demo.st_turbo
      (log (EvImport "hybrid_md.refit") Demo.w0).
Proof.
  apply (C2_resolved_function_called Demo.E Demo.st_turbo Demo.w0
           "hybrid_md.refit" "refit_turbo_si_c" (Demo.hybrid_md_refit 0)).
  - reflexivity.
  - reflexivity.
  - discriminate.
  - reflexivity.
  - reflexivity.
  - reflexivity.
Defined.

(** C3 (as the code has it): for every state whose refit function name is
    [None], [refit] is [refit_generic] with both the descriptor and the
    sigma argument [None]; the empty string is not taken as absent, it is
    resolved as a name, and the import of its empty module path fails
    before anything is read. *)
Theorem C3_none_selects_generic (E : env) (state : HybridMD) (w : world) :
  (refit_function_name state = None ->
   refit E state w = refit_generic E state None None w)
  /\ (refit_function_name state = Some "" ->
      refit E state w = (Raise (ValueError "Empty module name"), w)).
Proof.
  split; intros Hname; unfold refit; rewrite Hname; [reflexivity|].
  cbv zeta. erewrite bind_raise; reflexivity.
Qed.

Lemma C3_none_selects_generic_witness :
  refit Demo.E Demo.st_default Demo.w0
    = refit_generic Demo.E Demo.st_default None None Demo.w0
  /\ refit Demo.E Demo.st_empty Demo.w_model
       = (Raise (ValueError "Empty module name"), Demo.w_model).
Proof.
  split.
  - apply (proj1 (C3_none_selects_generic Demo.E Demo.st_default Demo.w0)). reflexivity.
  - apply (proj2 (C3_none_selects_generic Demo.E Demo.st_empty Demo.w_model)). reflexivity.
Defined.

(** C3 as stated fails for the empty string: it is not taken as absent but
    split like any other name, and importing the empty module path raises
    [ValueError] before anything is read, whereas [refit_generic] on the same
    state and world runs the fit. *)
Lemma C3_counterexample :
  refit Demo.E Demo.st_empty Demo.w0 = (Raise (ValueError "Empty module name"), Demo.w0)
  /\ fst (refit_generic Demo.E Demo.st_empty None None Demo.w0) = Ok PyNone
  /\ refit Demo.E Demo.st_empty Demo.w0
       <> refit_generic Demo.E Demo.st_empty None None Demo.w0.
Proof.
  assert (H1 : refit Demo.E Demo.st_empty Demo.w0
               = (Raise (ValueError "Empty module name"), Demo.w0))
    by (vm_compute; reflexivity).
  assert (H2 : fst (refit_generic Demo.E Demo.st_empty None None Demo.w0) = Ok PyNone)
    by (vm_compute; reflexivity).
  split; [exact H1|]. split; [exact H2|].
  intros Heq. rewrite <- Heq, H1 in H2. discriminate.
Qed.

(** ** The generic invoker *)

Section Invoker.

Context (E : env).

Lemma stdout_name_not_train (t : nat) : stdout_name E t <> "train.xyz".
Proof. discriminate. Qed.

Lemma stderr_name_not_train (t : nat) : stderr_name E t <> "train.xyz".
Proof. discriminate. Qed.

Lemma backup_name_not_train (w : world) : backup_name E w <> "train.xyz".
Proof. discriminate. Qed.

Lemma backup_name_not_model (w : world) : backup_name E w <> gp_name.
Proof. discriminate. Qed.

(** The trace after one call of [refit_generic] on readable inputs,
    whatever the exit status of the fit. *)
Lemma refit_generic_trace (state : HybridMD) (d s : option string) (w : world)
    (text : string) (from_file : list Atoms) (descr : string) :
  let frames := from_file ++ previous_data state (prev_calls w) in
  let cmd := fit_str (sigma_or_default s) descr in
  let proc := shell E cmd (fit_cwd E w frames) in
  fs w !! xyz_filename state = Some text ->
  xyz_parse E text = Ok from_file ->
  descriptor_is E d frames descr ->
  trace (snd (refit_generic E state d s w))
  = trace w ++ fit_events E state w frames cmd
    ++ capture_events E (ticks_after_backup w) proc.
Proof.
  intros frames cmd proc Hfile Hparse Hd. unfold capture_events. fold proc.
  destruct (decide (returncode proc = 0%Z)) as [Hrc|Hrc].
  - by rewrite (refit_generic_fit_succeeds E state d s w text from_file descr
                  Hfile Hparse Hd Hrc).
  - rewrite (refit_generic_fit_fails E state d s w text from_file descr
               Hfile Hparse Hd Hrc).
    cbn [snd trace]. by rewrite app_nil_r.
Qed.

(** What that call adds to the trace. *)
Lemma refit_generic_effects (state : HybridMD) (d s : option string) (w : world)
    (text : string) (from_file : list Atoms) (descr : string) :
  let frames := from_file ++ previous_data state (prev_calls w) in
  let cmd := fit_str (sigma_or_default s) descr in
  let proc := shell E cmd (fit_cwd E w frames) in
  fs w !! xyz_filename state = Some text ->
  xyz_parse E text = Ok from_file ->
  descriptor_is E d frames descr ->
  effects_since w (snd (refit_generic E state d s w))
  = fit_events E state w frames cmd ++ capture_events E (ticks_after_backup w) proc.
Proof.
  intros frames cmd proc Hfile Hparse Hd. apply effects_since_app.
  by apply (refit_generic_trace state d s w text).
Qed.

Lemma writes_to_train_fit_events (state : HybridMD) (w : world)
    (frames : list Atoms) (cmd : string) (t : nat) (proc : process) :
  List.filter (writes_to "train.xyz")
    (fit_events E state w frames cmd ++ capture_events E t proc)
  = [EvWrite "train.xyz" (xyz_print E frames)].
Proof.
  unfold fit_events, backup_events, capture_events.
  destruct (fs w !! gp_name), (decide (returncode proc = 0%Z));
    cbn [app List.filter writes_to];
    rewrite ?(bool_decide_eq_false_2 _ (stdout_name_not_train _)),
            ?(bool_decide_eq_false_2 _ (stderr_name_not_train _));
    reflexivity.
Qed.

Lemma runs_fit_events (state : HybridMD) (w : world)
    (frames : list Atoms) (cmd : string) (t : nat) (proc : process) :
  List.filter is_run (fit_events E state w frames cmd ++ capture_events E t proc)
  = [EvRun cmd (fit_cwd E w frames)].
Proof.
  unfold fit_events, backup_events, capture_events.
  destruct (fs w !! gp_name), (decide (returncode proc = 0%Z)); reflexivity.
Qed.

Lemma fit_cwd_train (w : world) (frames : list Atoms) :
  fit_cwd E w frames !! "train.xyz" = Some (xyz_print E frames).
Proof. unfold fit_cwd. apply lookup_insert_eq. Qed.

(** What one call of [refit_turbo_si_c] on readable inputs adds to the
    trace: its own reading, then a call of [refit_generic]. *)
Lemma refit_turbo_si_c_effects (state : HybridMD) (w : world)
    (text : string) (from_file : list Atoms) (delta : float) :
  let w1 := after_first_reading state w in
  let frames := from_file ++ previous_data state (S (prev_calls w)) in
  let cmd := fit_str turbo_default_sigma (turbo_descriptors E delta) in
  let proc := shell E cmd (fit_cwd E w1 frames) in
  fs w !! xyz_filename state = Some text ->
  xyz_parse E text = Ok from_file ->
  energy_delta E (from_file ++ previous_data state (prev_calls w)) = Ok delta ->
  effects_since w (snd (refit_turbo_si_c E state w))
  = [EvRead (xyz_filename state); EvPrevious (prev_calls w)]
    ++ fit_events E state w1 frames cmd
    ++ capture_events E (ticks_after_backup w1) proc.
Proof.
  intros w1 frames cmd proc Hfile Hparse Hdelta.
  rewrite (refit_turbo_si_c_delegates E state w text from_file delta Hfile Hparse Hdelta).
  fold (turbo_descriptors E delta). fold (after_first_reading state w). fold w1.
  apply effects_since_app.
  rewrite (refit_generic_trace state (Some (turbo_descriptors E delta))
             (Some turbo_default_sigma) w1 text from_file (turbo_descriptors E delta)
             Hfile Hparse eq_refl).
  unfold w1 at 1, after_first_reading. cbn [trace]. by rewrite <- app_assoc.
Qed.

End Invoker.

(** C5: whenever the structure file can be read (and, where [delta] is
    needed, computed), the training set of [refit_generic] is the frames of
    the file followed by those of [get_previous_data()], and it is what
    [train.xyz] holds when the fit starts, whatever the file held before;
    the same goes for [refit_turbo_si_c], whose training file comes from the
    reading done inside [refit_generic]. *)
Theorem C5_training_set (E : env) (state : HybridMD) (w : world)
    (text : string) (from_file : list Atoms) :
  fs w !! xyz_filename state = Some text ->
  xyz_parse E text = Ok from_file ->
  (forall d s descr,
     descriptor_is E d (from_file ++ previous_data state (prev_calls w)) descr ->
     trained_on E w (snd (refit_generic E state d s w))
       (from_file ++ previous_data state (prev_calls w)))
  /\ (forall delta,
        energy_delta E (from_file ++ previous_data state (prev_calls w)) = Ok delta ->
        trained_on E w (snd (refit_turbo_si_c E state w))
          (from_file ++ previous_data state (S (prev_calls w)))).
Proof.
  intros Hfile Hparse. split.
  - intros d s descr Hd. unfold trained_on.
    rewrite (refit_generic_effects E state d s w text from_file descr Hfile Hparse Hd).
    split; [apply writes_to_train_fit_events|].
    eexists _, _. split; [apply runs_fit_events|apply fit_cwd_train].
  - intros delta Hdelta. unfold trained_on.
    rewrite (refit_turbo_si_c_effects E state w text from_file delta Hfile Hparse Hdelta).
    cbn [app List.filter writes_to is_run].
    split; [apply writes_to_train_fit_events|].
    eexists _, _. split; [apply runs_fit_events|apply fit_cwd_train].
Qed.

Lemma C5_training_set_witness :
  trained_on Demo.E Demo.w_model
    (snd (refit_generic Demo.E Demo.st_default None None Demo.w_model))
    ([Demo.frame_a] ++ [Demo.frame_b])
  /\ trained_on Demo.E Demo.w_model
       (snd (refit_turbo_si_c Demo.E Demo.st_default Demo.w_model))
       ([Demo.frame_a] ++ [Demo.frame_b; Demo.frame_c]).
Proof.
  pose proof (C5_training_set Demo.E Demo.st_default Demo.w_model
                (Demo.print_frames [Demo.frame_a]) [Demo.frame_a]) as H.
  destruct H as [Hgeneric Hturbo]; [vm_compute; reflexivity | vm_compute; reflexivity |].
  split.
  - apply (Hgeneric None None (generic_descriptors Demo.E 0.125%float)).
    exists 0.125%float. split; [vm_compute; reflexivity | reflexivity].
  - apply (Hturbo 0.125%float). vm_compute. reflexivity.
Defined.

(** C6: whenever [refit_generic] gets as far as the fit, the one command it
    runs is [gap_fit] with [at_file], [gp_file], the three label names,
    [sparse_jitter] and the two flags set to F, then the sigma in braces,
    [e0_method=average], and the descriptors in braces, with a blank inside
    each brace; an absent [default_sigma] is replaced by
    0.005 0.050 0.1 1.0. *)
Theorem C6_command_line (E : env) (state : HybridMD) (d s : option string) (w : world)
    (text : string) (from_file : list Atoms) (descr : string) :
  fs w !! xyz_filename state = Some text ->
  xyz_parse E text = Ok from_file ->
  descriptor_is E d (from_file ++ previous_data state (prev_calls w)) descr ->
  (exists cwd,
     List.filter is_run (effects_since w (snd (refit_generic E state d s w)))
     = [EvRun (fixed_parameters
               +:+ "default_sigma={ "
               +:+ match s with Some sigma => sigma | None => "0.005 0.050 0.1 1.0" end
               +:+ " } e0_method=average gap={ " +:+ descr +:+ " }") cwd])
  /\ PyStr.split " " fixed_parameters
     = ["gap_fit"; "at_file=train.xyz"; "gp_file=GAP.xml";
        "energy_parameter_name=QM_energy"; "force_parameter_name=QM_forces";
        "virial_parameter_name=QM_virial"; "sparse_jitter=1.0e-8";
        "do_copy_at_file=F"; "sparse_separate_file=F"; ""].
Proof.
  intros Hfile Hparse Hd. split; [|vm_compute; reflexivity].
  rewrite (refit_generic_effects E state d s w text from_file descr Hfile Hparse Hd).
  eexists. rewrite runs_fit_events. reflexivity.
Qed.

Lemma C6_command_line_witness :
  exists cwd,
    List.filter is_run
      (effects_since Demo.w0 (snd (refit_generic Demo.E Demo.st_default None None Demo.w0)))
    = [EvRun (fixed_parameters
              +:+ "default_sigma={ " +:+ "0.005 0.050 0.1 1.0"
              +:+ " } e0_method=average gap={ "
              +:+ generic_descriptors Demo.E 0.125%float +:+ " }") cwd].
Proof.
  apply (C6_command_line Demo.E Demo.st_default None None Demo.w0
           (Demo.print_frames [Demo.frame_a]) [Demo.frame_a]
           (generic_descriptors Demo.E 0.125%float)).
  - vm_compute. reflexivity.
  - vm_compute. reflexivity.
  - exists 0.125%float. split; [vm_compute; reflexivity | reflexivity].
Defined.

Lemma fit_cwd_model_gone (E : env) (w : world) (frames : list Atoms) :
  fit_cwd E w frames !! gp_name = None.
Proof.
  unfold fit_cwd, after_backup. rewrite lookup_insert_ne by discriminate.
  destruct (fs w !! gp_name) as [model|] eqn:Hmodel; [|done].
  rewrite lookup_insert_ne by apply backup_name_not_model.
  apply lookup_delete_eq.
Qed.

Lemma fit_cwd_backup (E : env) (w : world) (frames : list Atoms) (model : string) :
  fs w !! gp_name = Some model ->
  fit_cwd E w frames !! backup_name E w = Some model.
Proof.
  intros Hmodel. unfold fit_cwd, after_backup. rewrite Hmodel.
  rewrite lookup_insert_ne by (apply not_eq_sym, backup_name_not_train).
  apply lookup_insert_eq.
Qed.

Lemma fit_cwd_other (E : env) (w : world) (frames : list Atoms) (p : string) :
  p <> gp_name -> p <> backup_name E w -> p <> "train.xyz" ->
  fit_cwd E w frames !! p = fs w !! p.
Proof.
  intros Hgp Hbackup Htrain. unfold fit_cwd, after_backup.
  rewrite lookup_insert_ne by done.
  destruct (fs w !! gp_name); [|done].
  rewrite lookup_insert_ne by done. by rewrite lookup_delete_ne.
Qed.

(** C7 (as the code has it): when a file exists under [GAP.xml] and the call
    gets as far as the fit, the file is renamed to
    [save__<time>__GAP.xml], with the clock reading of that moment, before
    [train.xyz] is written and before the fit starts; the fit then finds no
    file under [GAP.xml], finds the previous model under the backup name,
    and finds every file other than these two and [train.xyz], so every
    earlier backup with another name, as it was. *)
Theorem C7_model_backup (E : env) (state : HybridMD) (d s : option string) (w : world)
    (text : string) (from_file : list Atoms) (descr model : string) :
  let frames := from_file ++ previous_data state (prev_calls w) in
  let backup := "save__" +:+ format_float E (clock E (ticks w)) +:+ "__GAP.xml" in
  fs w !! xyz_filename state = Some text ->
  xyz_parse E text = Ok from_file ->
  descriptor_is E d frames descr ->
  fs w !! "GAP.xml" = Some model ->
  exists cmd cwd,
    effects_since w (snd (refit_generic E state d s w))
    = [EvRead (xyz_filename state); EvPrevious (prev_calls w);
       EvMove "GAP.xml" backup;
       EvWrite "train.xyz" (xyz_print E frames);
       EvRun cmd cwd]
      ++ capture_events E (S (ticks w)) (shell E cmd cwd)
    /\ cwd !! "GAP.xml" = None
    /\ cwd !! backup = Some model
    /\ forall p, p <> "GAP.xml" -> p <> backup -> p <> "train.xyz" ->
                 cwd !! p = fs w !! p.
Proof.
  intros frames backup Hfile Hparse Hd Hmodel.
  rewrite (refit_generic_effects E state d s w text from_file descr Hfile Hparse Hd).
  exists (fit_str (sigma_or_default s) descr), (fit_cwd E w frames).
  split; [|split; [|split]].
  - unfold fit_events, backup_events, ticks_after_backup.
    change "GAP.xml" with gp_name in Hmodel. rewrite Hmodel. reflexivity.
  - apply fit_cwd_model_gone.
  - by apply fit_cwd_backup.
  - intros p. apply fit_cwd_other.
Qed.

Lemma C7_model_backup_witness :
  exists cmd cwd,
    effects_since Demo.w_model (snd (refit_generic Demo.E Demo.st_default None None Demo.w_model))
    = [EvRead "frames.xyz"; EvPrevious 0;
       EvMove "GAP.xml" ("save__" +:+ Demo.format_exact (Demo.wall_clock 0) +:+ "__GAP.xml");
       EvWrite "train.xyz" (Demo.print_frames ([Demo.frame_a] ++ [Demo.frame_b]));
       EvRun cmd cwd]
      ++ capture_events Demo.E 1 (Demo.fitting_tool 0 cmd cwd)
    /\ cwd !! "GAP.xml" = None
    /\ cwd !! ("save__" +:+ Demo.format_exact (Demo.wall_clock 0) +:+ "__GAP.xml")
       = Some "model 2"
    /\ forall p, p <> "GAP.xml" ->
                 p <> "save__" +:+ Demo.format_exact (Demo.wall_clock 0) +:+ "__GAP.xml" ->
                 p <> "train.xyz" ->
                 cwd !! p = fs Demo.w_model !! p.
Proof.
  apply (C7_model_backup Demo.E Demo.st_default None None Demo.w_model
           (Demo.print_frames [Demo.frame_a]) [Demo.frame_a]
           (generic_descriptors Demo.E 0.125%float) "model 2").
  - vm_compute. reflexivity.
  - vm_compute. reflexivity.
  - exists 0.125%float. split; [vm_compute; reflexivity | reflexivity].
  - vm_compute. reflexivity.
Defined.

(** C7 as stated fails: on a clock that shows the same second for two
    calls, both calls rename the current model to the same backup name, and
    the second rename replaces the backup the first one made; the first
    model is then in no file. *)
Lemma C7_counterexample :
  let w1 := snd (refit_generic Demo.E_coarse Demo.st_default None None Demo.w_first) in
  let w2 := snd (refit_generic Demo.E_coarse Demo.st_default None None w1) in
  List.filter is_move (effects_since Demo.w_first w1)
    = [EvMove "GAP.xml" "save__1700000000.0__GAP.xml"]
  /\ List.filter is_move (effects_since w1 w2)
       = [EvMove "GAP.xml" "save__1700000000.0__GAP.xml"]
  /\ fs w1 !! "save__1700000000.0__GAP.xml" = Some "model 1"
  /\ fs w2 !! "save__1700000000.0__GAP.xml"
       = Some "model fitted on 2 atoms QM_energy=-2.0;2 atoms QM_energy=-4.0;"
  /\ map_Forall (fun _ content => content <> "model 1") (fs w2).
Proof.
  cbv zeta. split; [vm_compute; reflexivity|].
  split; [vm_compute; reflexivity|].
  split; [vm_compute; reflexivity|].
  split; [vm_compute; reflexivity|].
  apply map_Forall_to_list. vm_compute.
  repeat (constructor; [intros ?; discriminate|]). constructor.
Qed.

(** C8: when the fitting process exits with a non-zero status,
    [refit_generic] raises a [CalledProcessError] that holds the captured
    output and error text; the process was started once, nothing was done
    after it, so no capture file was written, and the directory is as the
    process left it, with the training file and the renamed model that were
    put there before. *)
Theorem C8_fit_failure (E : env) (state : HybridMD) (d s : option string) (w : world)
    (text : string) (from_file : list Atoms) (descr : string) :
  let frames := from_file ++ previous_data state (prev_calls w) in
  let cmd := fit_str (sigma_or_default s) descr in
  let cwd := fit_cwd E w frames in
  let proc := shell E cmd cwd in
  fs w !! xyz_filename state = Some text ->
  xyz_parse E text = Ok from_file ->
  descriptor_is E d frames descr ->
  returncode proc <> 0%Z ->
  exists w',
    refit_generic E state d s w
    = (Raise (CalledProcessError (returncode proc) cmd (stdout proc) (stderr proc)), w')
    /\ List.filter is_write (effects_since w w') = [EvWrite "train.xyz" (xyz_print E frames)]
    /\ List.filter is_run (effects_since w w') = [EvRun cmd cwd]
    /\ last (effects_since w w') = Some (EvRun cmd cwd)
    /\ fs w' = fs_after proc
    /\ cwd !! "train.xyz" = Some (xyz_print E frames)
    /\ cwd !! "GAP.xml" = None
    /\ forall model,
         fs w !! "GAP.xml" = Some model ->
         List.filter is_move (effects_since w w') = [EvMove "GAP.xml" (backup_name E w)]
         /\ cwd !! backup_name E w = Some model.
Proof.
  intros frames cmd cwd proc Hfile Hparse Hd Hrc.
  eexists. split.
  { apply (refit_generic_fit_fails E state d s w text from_file descr Hfile Hparse Hd Hrc). }
  rewrite (effects_since_app w (fit_events E state w frames cmd)) by reflexivity.
  unfold fit_events, backup_events. cbn [fs].
  split; [by destruct (fs w !! gp_name)|].
  split; [by destruct (fs w !! gp_name)|].
  split; [by destruct (fs w !! gp_name)|].
  split; [done|].
  split; [apply fit_cwd_train|].
  split; [apply fit_cwd_model_gone|].
  intros model Hmodel. change "GAP.xml" with gp_name in Hmodel.
  rewrite Hmodel. split; [done|]. by apply fit_cwd_backup.
Qed.

Lemma C8_fit_failure_witness :
  exists w',
    refit_generic Demo.E_fail Demo.st_default None None Demo.w_model
    = (Raise (CalledProcessError 1
                (fit_str "0.005 0.050 0.1 1.0" (generic_descriptors Demo.E_fail 0.125%float))
                "" "gap_fit: fit failed"), w')
    /\ List.filter is_write (effects_since Demo.w_model w')
       = [EvWrite "train.xyz" (Demo.print_frames ([Demo.frame_a] ++ [Demo.frame_b]))]
    /\ fs w' !! "GAP.xml" = None
    /\ fs w' !! "save__1700000000.0__GAP.xml" = Some "model 2".
Proof.
  destruct (C8_fit_failure Demo.E_fail Demo.st_default None None Demo.w_model
              (Demo.print_frames [Demo.frame_a]) [Demo.frame_a]
              (generic_descriptors Demo.E_fail 0.125%float))
    as (w' & Hrun & Hwrites & _ & _ & Hfs & _ & Hgone & Hbackup).
  - vm_compute. reflexivity.
  - vm_compute. reflexivity.
  - exists 0.125%float. split; [vm_compute; reflexivity | reflexivity].
  - vm_compute. discriminate.
  - exists w'. split; [exact Hrun|]. split; [exact Hwrites|].
    rewrite Hfs. split; [vm_compute; reflexivity | vm_compute; reflexivity].
Defined.

(** ** The regularisation scale *)

Section Delta.

Context (E : env).

Lemma per_atom_energies_spec (frames : list Atoms) (xs : list float) :
  Forall2 energy_per_atom frames xs -> per_atom_energies frames = Ok xs.
Proof.
  induction 1 as [|at_ x frames xs (e & He & Hatoms & ->) _ IH]; [done|].
  cbn [per_atom_energies]. unfold per_atom_energy. rewrite He.
  destruct (numbers at_) as [|z zs]; [done|]. cbn [length]. by rewrite IH.
Qed.

(** [np.std] with its default [ddof] is the population standard deviation. *)
Lemma np_std_population (xs : list float) :
  np_std E xs = population_std (np_add_reduce E) xs.
Proof.
  unfold np_std, np_var, population_std, mean.
  rewrite map_map, length_map, Nat.sub_0_r, Nat.max_0_r. reflexivity.
Qed.

Lemma energy_delta_spec (frames : list Atoms) (xs : list float) :
  Forall2 energy_per_atom frames xs ->
  energy_delta E frames = Ok (population_std (np_add_reduce E) xs / 4)%float.
Proof.
  intros H. unfold energy_delta.
  by rewrite (per_atom_energies_spec _ _ H), np_std_population.
Qed.

(** For the two values of the example the statistic needs only two sums of
    two floats. *)
Lemma population_std_example :
  sums_pairs (np_add_reduce E) ->
  (population_std (np_add_reduce E) [-1.0; -2.0] / 4 = 0.125)%float.
Proof.
  intros Hpair. unfold population_std, mean. cbn [map length].
  rewrite (Hpair (-1.0)%float (-2.0)%float) by reflexivity.
  replace (float_of_nat 2) with 2%float by reflexivity.
  replace ((-1.0 + -2.0) / 2)%float with (-1.5)%float by reflexivity.
  replace ((-1.0 - -1.5) * (-1.0 - -1.5))%float with 0.25%float by reflexivity.
  replace ((-2.0 - -1.5) * (-2.0 - -1.5))%float with 0.25%float by reflexivity.
  rewrite (Hpair 0.25%float 0.25%float) by reflexivity.
  reflexivity.
Qed.

End Delta.

(** C4: with [xs] the energy label of each training structure divided by
    its number of atoms, and an array sum that adds two values as floats
    are added, the [delta] of both [refit_generic] without a descriptor
    override and [refit_turbo_si_c] is a quarter of the population standard
    deviation of [xs], and it is the [delta] of the command that is run; for
    two structures with per-atom energies -1.0 and -2.0 it is 0.125. *)
Theorem C4_delta (E : env) (state : HybridMD) (s : option string) (w : world)
    (text : string) (from_file : list Atoms) (xs : list float) :
  let delta := (population_std (np_add_reduce E) xs / 4)%float in
  fs w !! xyz_filename state = Some text ->
  xyz_parse E text = Ok from_file ->
  Forall2 energy_per_atom (from_file ++ previous_data state (prev_calls w)) xs ->
  sums_pairs (np_add_reduce E) ->
  energy_delta E (from_file ++ previous_data state (prev_calls w)) = Ok delta
  /\ (exists cwd,
        List.filter is_run (effects_since w (snd (refit_generic E state None s w)))
        = [EvRun (fit_str (sigma_or_default s) (generic_descriptors E delta)) cwd])
  /\ (exists cwd,
        List.filter is_run (effects_since w (snd (refit_turbo_si_c E state w)))
        = [EvRun (fit_str turbo_default_sigma (turbo_descriptors E delta)) cwd])
  /\ (population_std (np_add_reduce E) [-1.0; -2.0] / 4 = 0.125)%float
  /\ energy_delta E [mkAtoms [14%Z; 14%Z] {["QM_energy" := (-2.0)%float]};
                     mkAtoms [14%Z; 14%Z] {["QM_energy" := (-4.0)%float]}]
     = Ok 0.125%float.
Proof.
  intros delta Hfile Hparse Hxs Hpair.
  pose proof (energy_delta_spec E _ _ Hxs) as Hdelta. fold delta in Hdelta.
  assert (Hexample : (population_std (np_add_reduce E) [-1.0; -2.0] / 4 = 0.125)%float).
  { exact (population_std_example E Hpair). }
  split; [exact Hdelta|]. split; [|split; [|split]].
  - rewrite (refit_generic_effects E state None s w text from_file
               (generic_descriptors E delta) Hfile Hparse).
    + eexists. apply runs_fit_events.
    + exists delta. split; [exact Hdelta | reflexivity].
  - rewrite (refit_turbo_si_c_effects E state w text from_file delta Hfile Hparse Hdelta).
    cbn [app List.filter is_run]. eexists. apply runs_fit_events.
  - exact Hexample.
  - rewrite (energy_delta_spec E _ [(-1.0)%float; (-2.0)%float]).
    + by rewrite Hexample.
    + repeat constructor; eexists; (split; [vm_compute; reflexivity|]);
        (split; [discriminate | vm_compute; reflexivity]).
Qed.

Lemma C4_delta_witness :
  energy_delta Demo.E ([Demo.frame_a] ++ [Demo.frame_b])
    = Ok (population_std Demo.add_reduce [-1.0; -2.0] / 4)%float
  /\ (exists cwd,
        List.filter is_run
          (effects_since Demo.w0 (snd (refit_generic Demo.E Demo.st_default None None Demo.w0)))
        = [EvRun (fit_str "0.005 0.050 0.1 1.0"
                    (generic_descriptors Demo.E
                       (population_std Demo.add_reduce [-1.0; -2.0] / 4)%float)) cwd])
  /\ (exists cwd,
        List.filter is_run
          (effects_since Demo.w0 (snd (refit_turbo_si_c Demo.E Demo.st_default Demo.w0)))
        = [EvRun (fit_str turbo_default_sigma
                    (turbo_descriptors Demo.E
                       (population_std Demo.add_reduce [-1.0; -2.0] / 4)%float)) cwd])
  /\ (population_std Demo.add_reduce [-1.0; -2.0] / 4 = 0.125)%float.
Proof.
  destruct (C4_delta Demo.E Demo.st_default None Demo.w0
              (Demo.print_frames [Demo.frame_a]) [Demo.frame_a]
              [(-1.0)%float; (-2.0)%float])
    as (Hdelta & Hgeneric & Hturbo & Hexample & _).
  - vm_compute. reflexivity.
  - vm_compute. reflexivity.
  - repeat constructor; eexists; (split; [vm_compute; reflexivity|]);
      (split; [discriminate | vm_compute; reflexivity]).
  - intros x y _. reflexivity.
  - split; [exact Hdelta|]. split; [exact Hgeneric|]. split; [exact Hturbo | exact Hexample].
Defined.

(** The convention is the population one: the sample standard deviation of
    the same two values gives another [delta]. *)
Lemma sample_std_differs :
  (sample_std Demo.add_reduce [-1.0; -2.0] / 4)%float
  <> (population_std Demo.add_reduce [-1.0; -2.0] / 4)%float.
Proof.
  intros H.
  discriminate (f_equal (fun x => PrimFloat.eqb x 0.125%float) H).
Qed.

(** C9 fails on the code: the sigma string [refit_turbo_si_c] passes is the
    very default of [refit_generic], so passing it changes nothing, and the
    command of a [refit_turbo_si_c] call carries the generic default. *)
Theorem C9_turbo_sigma_is_generic_default (E : env) (state : HybridMD)
    (d : option string) (w : world) :
  turbo_default_sigma = generic_default_sigma
  /\ refit_generic E state d (Some turbo_default_sigma) w = refit_generic E state d None w
  /\ exists cwd,
       List.filter is_run
         (effects_since Demo.w0 (snd (refit_turbo_si_c Demo.E Demo.st_default Demo.w0)))
       = [EvRun (fit_str generic_default_sigma (turbo_descriptors Demo.E 0.125%float)) cwd].
Proof.
  split; [reflexivity|]. split; [reflexivity|].
  eexists. vm_compute. reflexivity.
Qed.

(** C10: a call of [refit_turbo_si_c] on readable inputs reads the structure
    file twice and calls [get_previous_data()] twice, first for [delta] and
    then inside [refit_generic]; the command carries the [delta] of the first
    reading, and [train.xyz] the frames of the second. *)
Theorem C10_turbo_reads_twice (E : env) (state : HybridMD) (w : world)
    (text : string) (from_file : list Atoms) (delta : float) :
  let effects := effects_since w (snd (refit_turbo_si_c E state w)) in
  fs w !! xyz_filename state = Some text ->
  xyz_parse E text = Ok from_file ->
  energy_delta E (from_file ++ previous_data state (prev_calls w)) = Ok delta ->
  take 4 effects
    = [EvRead (xyz_filename state); EvPrevious (prev_calls w);
       EvRead (xyz_filename state); EvPrevious (S (prev_calls w))]
  /\ List.filter is_read effects
     = [EvRead (xyz_filename state); EvRead (xyz_filename state)]
  /\ List.filter is_previous effects
     = [EvPrevious (prev_calls w); EvPrevious (S (prev_calls w))]
  /\ List.filter (writes_to "train.xyz") effects
     = [EvWrite "train.xyz"
          (xyz_print E (from_file ++ previous_data state (S (prev_calls w))))]
  /\ exists cwd,
       List.filter is_run effects
       = [EvRun (fit_str turbo_default_sigma (turbo_descriptors E delta)) cwd]
       /\ cwd !! "train.xyz"
          = Some (xyz_print E (from_file ++ previous_data state (S (prev_calls w)))).
Proof.
  intros effects Hfile Hparse Hdelta. unfold effects.
  rewrite (refit_turbo_si_c_effects E state w text from_file delta Hfile Hparse Hdelta).
  split; [reflexivity|].
  split.
  { unfold fit_events, backup_events, capture_events, after_first_reading. cbn [fs].
    destruct (fs w !! gp_name), (decide (_ = 0%Z)); reflexivity. }
  split.
  { unfold fit_events, backup_events, capture_events, after_first_reading. cbn [fs].
    destruct (fs w !! gp_name), (decide (_ = 0%Z)); reflexivity. }
  cbn [app List.filter writes_to is_run].
  split; [apply writes_to_train_fit_events|].
  eexists. split; [apply runs_fit_events | apply fit_cwd_train].
Qed.

Lemma C10_turbo_reads_twice_witness :
  let effects :=
    effects_since Demo.w0 (snd (refit_turbo_si_c Demo.E Demo.st_default Demo.w0)) in
  take 4 effects
    = [EvRead "frames.xyz"; EvPrevious 0; EvRead "frames.xyz"; EvPrevious 1]
  /\ List.filter is_read effects = [EvRead "frames.xyz"; EvRead "frames.xyz"]
  /\ List.filter is_previous effects = [EvPrevious 0; EvPrevious 1]
  /\ List.filter (writes_to "train.xyz") effects
     = [EvWrite "train.xyz"
          (Demo.print_frames ([Demo.frame_a] ++ [Demo.frame_b; Demo.frame_c]))]
  /\ exists cwd,
       List.filter is_run effects
       = [EvRun (fit_str turbo_default_sigma (turbo_descriptors Demo.E 0.125%float)) cwd]
       /\ cwd !! "train.xyz"
          = Some (Demo.print_frames ([Demo.frame_a] ++ [Demo.frame_b; Demo.frame_c])).
Proof.
  apply (C10_turbo_reads_twice Demo.E Demo.st_default Demo.w0
           (Demo.print_frames [Demo.frame_a]) [Demo.frame_a] 0.125%float).
  - vm_compute. reflexivity.
  - vm_compute. reflexivity.
  - vm_compute. reflexivity.
Defined.

(** ** Further properties of the invoker: inputs that cannot be used *)

Section Inputs.

Context (E : env).

(** With atoms in every structure, the first error of the per-atom
    energies is the missing label. *)
Lemma per_atom_energies_missing_label (frames : list Atoms) :
  Forall (fun at_ => numbers at_ <> []) frames ->
  Exists (fun at_ => info at_ !! "QM_energy" = None) frames ->
  per_atom_energies frames = Raise (KeyError "QM_energy").
Proof.
  induction 1 as [|at_ frames Hatoms _ IH]; intros Hmissing.
  - by apply Exists_nil in Hmissing.
  - cbn [per_atom_energies]. unfold per_atom_energy.
    destruct (info at_ !! "QM_energy") as [e|] eqn:Hlabel; [|done].
    destruct (numbers at_) as [|z zs]; [done|]. cbn [length].
    apply Exists_cons in Hmissing as [Hhere|Hlater]; [congruence|].
    by rewrite (IH Hlater).
Qed.

(** Lines 118-122 (and 63-64) when [delta] cannot be computed: the error
    comes after the reading and before everything else. *)
Lemma delta_error_stops (state : HybridMD) (s : option string) (w : world)
    (text : string) (from_file : list Atoms) (e : exn) :
  fs w !! xyz_filename state = Some text ->
  xyz_parse E text = Ok from_file ->
  energy_delta E (from_file ++ previous_data state (prev_calls w)) = Raise e ->
  refit_generic E state None s w = (Raise e, after_first_reading state w)
  /\ refit_turbo_si_c E state w = (Raise e, after_first_reading state w).
Proof.
  intros Hfile Hparse Hdelta. unfold refit_generic, refit_turbo_si_c. split.
  - erewrite bind_ok; [| unfold ase_io_read; rewrite Hfile, Hparse; reflexivity].
    erewrite bind_ok; [| reflexivity].
    cbn [prev_calls log].
    erewrite bind_raise; [reflexivity|].
    erewrite bind_raise; [|unfold lift; rewrite Hdelta; reflexivity].
    unfold after_first_reading, log. norm_trace. reflexivity.
  - erewrite bind_ok; [| unfold ase_io_read; rewrite Hfile, Hparse; reflexivity].
    erewrite bind_ok; [| reflexivity].
    cbn [prev_calls log].
    erewrite bind_raise; [|unfold lift; rewrite Hdelta; reflexivity].
    unfold after_first_reading, log. norm_trace. reflexivity.
Qed.

Lemma untouched_after_first_reading (state : HybridMD) (w : world) :
  untouched w (after_first_reading state w).
Proof.
  split; [reflexivity|].
  by rewrite (effects_since_app w [EvRead (xyz_filename state); EvPrevious (prev_calls w)]).
Qed.

End Inputs.

(** X1: when the structure file does not exist, [refit_generic] and
    [refit_turbo_si_c] raise [FileNotFoundError] and leave the world as it
    was; when the file exists and cannot be parsed, the error of the reader
    comes out unchanged after the one read: [get_previous_data()] is not
    called, no clock is read, nothing is renamed, written or run. *)
Theorem X1_unreadable_input (E : env) (state : HybridMD) (d s : option string)
    (w : world) :
  (fs w !! xyz_filename state = None ->
   refit_generic E state d s w = (Raise (FileNotFoundError (xyz_filename state)), w)
   /\ refit_turbo_si_c E state w = (Raise (FileNotFoundError (xyz_filename state)), w))
  /\ (forall text e,
        fs w !! xyz_filename state = Some text ->
        xyz_parse E text = Raise e ->
        refit_generic E state d s w = (Raise e, log (EvRead (xyz_filename state)) w)
        /\ refit_turbo_si_c E state w = (Raise e, log (EvRead (xyz_filename state)) w)).
Proof.
  split.
  - intros Hfile. unfold refit_generic, refit_turbo_si_c.
    split; (erewrite bind_raise; [reflexivity|]);
      unfold ase_io_read; by rewrite Hfile.
  - intros text e Hfile Hparse. unfold refit_generic, refit_turbo_si_c.
    split; (erewrite bind_raise; [reflexivity|]);
      unfold ase_io_read; by rewrite Hfile, Hparse.
Qed.

Lemma X1_unreadable_input_witness :
  (refit_generic Demo.E Demo.st_missing_file None None Demo.w_model
     = (Raise (FileNotFoundError "lost.xyz"), Demo.w_model)
   /\ refit_turbo_si_c Demo.E Demo.st_missing_file Demo.w_model
        = (Raise (FileNotFoundError "lost.xyz"), Demo.w_model))
  /\ (refit_generic Demo.E Demo.st_default None None Demo.w_garbled
        = (Raise (ValueError "not a structure file"), log (EvRead "frames.xyz") Demo.w_garbled)
      /\ refit_turbo_si_c Demo.E Demo.st_default Demo.w_garbled
           = (Raise (ValueError "not a structure file"),
              log (EvRead "frames.xyz") Demo.w_garbled)).
Proof.
  split.
  - apply (proj1 (X1_unreadable_input Demo.E Demo.st_missing_file None None Demo.w_model)).
    vm_compute. reflexivity.
  - apply (proj2 (X1_unreadable_input Demo.E Demo.st_default None None Demo.w_garbled)
             "no frames here").
    + vm_compute. reflexivity.
    + vm_compute. reflexivity.
Defined.

(** X2: when every training structure has atoms and one of them has no
    [QM_energy] label, [refit_generic] without a descriptor override and
    [refit_turbo_si_c] raise [KeyError] for that label right after the
    reading: no file has been renamed or written and no process started. *)
Theorem X2_missing_energy_label (E : env) (state : HybridMD) (s : option string)
    (w : world) (text : string) (from_file : list Atoms) :
  let frames := from_file ++ previous_data state (prev_calls w) in
  fs w !! xyz_filename state = Some text ->
  xyz_parse E text = Ok from_file ->
  Forall (fun at_ => numbers at_ <> []) frames ->
  Exists (fun at_ => info at_ !! "QM_energy" = None) frames ->
  refit_generic E state None s w
    = (Raise (KeyError "QM_energy"), after_first_reading state w)
  /\ refit_turbo_si_c E state w
     = (Raise (KeyError "QM_energy"), after_first_reading state w)
  /\ untouched w (after_first_reading state w).
Proof.
  intros frames Hfile Hparse Hatoms Hmissing.
  assert (Hdelta : energy_delta E frames = Raise (KeyError "QM_energy")).
  { unfold energy_delta. by rewrite (per_atom_energies_missing_label _ Hatoms Hmissing). }
  destruct (delta_error_stops E state s w text from_file _ Hfile Hparse Hdelta)
    as [Hgeneric Hturbo].
  split; [exact Hgeneric|]. split; [exact Hturbo|].
  apply untouched_after_first_reading.
Qed.

Lemma X2_missing_energy_label_witness :
  refit_generic Demo.E Demo.st_unlabelled None None Demo.w_model
    = (Raise (KeyError "QM_energy"), after_first_reading Demo.st_unlabelled Demo.w_model)
  /\ refit_turbo_si_c Demo.E Demo.st_unlabelled Demo.w_model
     = (Raise (KeyError "QM_energy"), after_first_reading Demo.st_unlabelled Demo.w_model)
  /\ untouched Demo.w_model (after_first_reading Demo.st_unlabelled Demo.w_model).
Proof.
  apply (X2_missing_energy_label Demo.E Demo.st_unlabelled None Demo.w_model
           (Demo.print_frames [Demo.frame_a]) [Demo.frame_a]).
  - vm_compute. reflexivity.
  - vm_compute. reflexivity.
  - repeat constructor; discriminate.
  - apply Exists_cons_tl, Exists_cons_hd. vm_compute. reflexivity.
Defined.

(** X3: with an empty training set (no frame in the file, none from
    [get_previous_data()]) and an array sum that is zero on the empty array,
    the [delta] of lines 120-122 is not an error but NaN, and
    [refit_generic] without a descriptor override goes on to run the fit
    with that [delta] in both descriptor blocks. *)
Theorem X3_empty_training_set (E : env) (state : HybridMD) (s : option string)
    (w : world) (text : string) :
  fs w !! xyz_filename state = Some text ->
  xyz_parse E text = Ok [] ->
  previous_data state (prev_calls w) = [] ->
  np_add_reduce E [] = 0%float ->
  energy_delta E [] = Ok PrimFloat.nan
  /\ exists cwd,
       List.filter is_run (effects_since w (snd (refit_generic E state None s w)))
       = [EvRun (fit_str (sigma_or_default s) (generic_descriptors E PrimFloat.nan)) cwd]
       /\ cwd !! "train.xyz" = Some (xyz_print E []).
Proof.
  intros Hfile Hparse Hprev Hsum.
  assert (Hdelta : energy_delta E [] = Ok PrimFloat.nan).
  { unfold energy_delta, np_std, np_var. cbn [per_atom_energies map length].
    rewrite Hsum. reflexivity. }
  split; [exact Hdelta|].
  rewrite (refit_generic_effects E state None s w text []
             (generic_descriptors E PrimFloat.nan) Hfile Hparse).
  - rewrite Hprev. eexists. split; [apply runs_fit_events | apply fit_cwd_train].
  - rewrite Hprev. exists PrimFloat.nan. split; [exact Hdelta | reflexivity].
Qed.

Lemma X3_empty_training_set_witness :
  energy_delta Demo.E [] = Ok PrimFloat.nan
  /\ exists cwd,
       List.filter is_run
         (effects_since Demo.w_empty
            (snd (refit_generic Demo.E Demo.st_no_frames None None Demo.w_empty)))
       = [EvRun (fit_str "0.005 0.050 0.1 1.0" (generic_descriptors Demo.E PrimFloat.nan)) cwd]
       /\ cwd !! "train.xyz" = Some (Demo.print_frames []).
Proof.
  apply (X3_empty_training_set Demo.E Demo.st_no_frames None Demo.w_empty "").
  - vm_compute. reflexivity.
  - vm_compute. reflexivity.
  - reflexivity.
  - reflexivity.
Defined.

(** ** Further properties of the invoker: the files it leaves *)

Section Files.

Context (E : env).

Lemma capture_names_differ (t t' : nat) : stdout_name E t <> stderr_name E t'.
Proof. discriminate. Qed.

Lemma stdout_name_not_model (t : nat) : stdout_name E t <> gp_name.
Proof. discriminate. Qed.

Lemma stderr_name_not_model (t : nat) : stderr_name E t <> gp_name.
Proof. discriminate. Qed.

Lemma stdout_name_not_backup (t : nat) (w : world) : stdout_name E t <> backup_name E w.
Proof. discriminate. Qed.

Lemma stderr_name_not_backup (t : nat) (w : world) : stderr_name E t <> backup_name E w.
Proof. discriminate. Qed.

(** The directory after one call of [refit_generic] on readable inputs: as
    the process left it, with the two capture files added after status
    zero. *)
Lemma refit_generic_final_fs (state : HybridMD) (d s : option string) (w : world)
    (text : string) (from_file : list Atoms) (descr : string) :
  let frames := from_file ++ previous_data state (prev_calls w) in
  let cmd := fit_str (sigma_or_default s) descr in
  let proc := shell E cmd (fit_cwd E w frames) in
  let t := ticks_after_backup w in
  fs w !! xyz_filename state = Some text ->
  xyz_parse E text = Ok from_file ->
  descriptor_is E d frames descr ->
  fs (snd (refit_generic E state d s w))
  = if decide (returncode proc = 0%Z)
    then <[stderr_name E (S t) := stderr proc]>
           (<[stdout_name E t := stdout proc]> (fs_after proc))
    else fs_after proc.
Proof.
  intros frames cmd proc t Hfile Hparse Hd.
  destruct (decide (returncode proc = 0%Z)) as [Hrc|Hrc].
  - by rewrite (refit_generic_fit_succeeds E state d s w text from_file descr
                  Hfile Hparse Hd Hrc).
  - by rewrite (refit_generic_fit_fails E state d s w text from_file descr
                  Hfile Hparse Hd Hrc).
Qed.

(** A file that is none of the two capture files is, after the call, as the
    process left it. *)
Lemma final_fs_other (state : HybridMD) (d s : option string) (w : world)
    (text : string) (from_file : list Atoms) (descr p : string) :
  let frames := from_file ++ previous_data state (prev_calls w) in
  let cmd := fit_str (sigma_or_default s) descr in
  let proc := shell E cmd (fit_cwd E w frames) in
  fs w !! xyz_filename state = Some text ->
  xyz_parse E text = Ok from_file ->
  descriptor_is E d frames descr ->
  p <> stdout_name E (ticks_after_backup w) ->
  p <> stderr_name E (S (ticks_after_backup w)) ->
  fs (snd (refit_generic E state d s w)) !! p = fs_after proc !! p.
Proof.
  intros frames cmd proc Hfile Hparse Hd Hout Herr.
  rewrite (refit_generic_final_fs state d s w text from_file descr Hfile Hparse Hd).
  fold frames cmd proc.
  destruct (decide (returncode proc = 0%Z)); [|done].
  by rewrite !lookup_insert_ne.
Qed.

End Files.

(** X4: when the fitting process exits with status zero, [refit_generic]
    returns [None]; the clock has been read twice more, and the captured
    output and error text are in the two capture files named after these
    two readings, written after the fit and in this order; the rest of the
    directory is as the process left it. *)
Theorem X4_fit_success (E : env) (state : HybridMD) (d s : option string) (w : world)
    (text : string) (from_file : list Atoms) (descr : string) :
  let frames := from_file ++ previous_data state (prev_calls w) in
  let cmd := fit_str (sigma_or_default s) descr in
  let cwd := fit_cwd E w frames in
  let proc := shell E cmd cwd in
  let t := ticks_after_backup w in
  let out_name := "stdout_GAP.xml_at_" +:+ format_float E (clock E t) +:+ "__.txt" in
  let err_name := "stderr_GAP.xml_at_" +:+ format_float E (clock E (S t)) +:+ "__.txt" in
  fs w !! xyz_filename state = Some text ->
  xyz_parse E text = Ok from_file ->
  descriptor_is E d frames descr ->
  returncode proc = 0%Z ->
  exists w',
    refit_generic E state d s w = (Ok PyNone, w')
    /\ ticks w' = S (S t)
    /\ fs w' !! out_name = Some (stdout proc)
    /\ fs w' !! err_name = Some (stderr proc)
    /\ (forall p, p <> out_name -> p <> err_name -> fs w' !! p = fs_after proc !! p)
    /\ exists before,
         effects_since w w'
         = before ++ [EvRun cmd cwd; EvWrite out_name (stdout proc);
                      EvWrite err_name (stderr proc)]
         /\ List.filter is_run before = [].
Proof.
  intros frames cmd cwd proc t out_name err_name Hfile Hparse Hd Hrc.
  eexists. split.
  { apply (refit_generic_fit_succeeds E state d s w text from_file descr
             Hfile Hparse Hd Hrc). }
  cbn [ticks fs]. fold frames cmd cwd proc t.
  change (stdout_name E t) with out_name.
  change (stderr_name E (S t)) with err_name.
  split; [reflexivity|].
  split.
  { rewrite lookup_insert_ne by (apply not_eq_sym, (capture_names_differ E t (S t))).
    apply lookup_insert_eq. }
  split; [apply lookup_insert_eq|].
  split.
  { intros p Hout Herr. by rewrite !lookup_insert_ne. }
  exists ([EvRead (xyz_filename state); EvPrevious (prev_calls w)]
          ++ backup_events E w ++ [EvWrite "train.xyz" (xyz_print E frames)]).
  split.
  - rewrite (effects_since_app w
               (fit_events E state w frames cmd
                ++ [EvWrite out_name (stdout proc); EvWrite err_name (stderr proc)]))
      by reflexivity.
    unfold fit_events. fold cwd. by rewrite <- !app_assoc.
  - unfold backup_events. by destruct (fs w !! gp_name).
Qed.

Lemma X4_fit_success_witness :
  exists w',
    refit_generic Demo.E Demo.st_default None None Demo.w_model = (Ok PyNone, w')
    /\ ticks w' = 3
    /\ fs w' !! "stdout_GAP.xml_at_1700000001.0__.txt" = Some "fit finished"
    /\ fs w' !! "stderr_GAP.xml_at_1700000002.0__.txt" = Some "".
Proof.
  destruct (X4_fit_success Demo.E Demo.st_default None None Demo.w_model
              (Demo.print_frames [Demo.frame_a]) [Demo.frame_a]
              (generic_descriptors Demo.E 0.125%float))
    as (w' & Hrun & Hticks & Hout & Herr & _).
  - vm_compute. reflexivity.
  - vm_compute. reflexivity.
  - exists 0.125%float. split; [vm_compute; reflexivity | reflexivity].
  - vm_compute. reflexivity.
  - exists w'. split; [exact Hrun|]. split; [exact Hticks|].
    split; [exact Hout | exact Herr].
Defined.

(** X5: when no file exists under [GAP.xml], [refit_generic] renames
    nothing and reads no clock before the fit: the fit starts in the
    directory as it was, with [train.xyz] replaced, and the capture files,
    if any, carry the first two clock readings. *)
Theorem X5_no_model_no_backup (E : env) (state : HybridMD) (d s : option string)
    (w : world) (text : string) (from_file : list Atoms) (descr : string) :
  let frames := from_file ++ previous_data state (prev_calls w) in
  let cmd := fit_str (sigma_or_default s) descr in
  let cwd := <["train.xyz" := xyz_print E frames]> (fs w) in
  fs w !! xyz_filename state = Some text ->
  xyz_parse E text = Ok from_file ->
  descriptor_is E d frames descr ->
  fs w !! "GAP.xml" = None ->
  effects_since w (snd (refit_generic E state d s w))
  = [EvRead (xyz_filename state); EvPrevious (prev_calls w);
     EvWrite "train.xyz" (xyz_print E frames); EvRun cmd cwd]
    ++ capture_events E (ticks w) (shell E cmd cwd).
Proof.
  intros frames cmd cwd Hfile Hparse Hd Hmodel.
  rewrite (refit_generic_effects E state d s w text from_file descr Hfile Hparse Hd).
  unfold fit_events, backup_events, ticks_after_backup, fit_cwd, after_backup.
  change "GAP.xml" with gp_name in Hmodel. rewrite Hmodel. reflexivity.
Qed.

Lemma X5_no_model_no_backup_witness :
  effects_since Demo.w0 (snd (refit_generic Demo.E_fail Demo.st_default None None Demo.w0))
  = [EvRead "frames.xyz"; EvPrevious 0;
     EvWrite "train.xyz" (Demo.print_frames ([Demo.frame_a] ++ [Demo.frame_b]));
     EvRun (fit_str "0.005 0.050 0.1 1.0" (generic_descriptors Demo.E_fail 0.125%float))
       (<["train.xyz" := Demo.print_frames ([Demo.frame_a] ++ [Demo.frame_b])]>
          (fs Demo.w0))]
    ++ capture_events Demo.E_fail 0
         (Demo.fitting_tool 1
            (fit_str "0.005 0.050 0.1 1.0" (generic_descriptors Demo.E_fail 0.125%float))
            (<["train.xyz" := Demo.print_frames ([Demo.frame_a] ++ [Demo.frame_b])]>
               (fs Demo.w0))).
Proof.
  apply (X5_no_model_no_backup Demo.E_fail Demo.st_default None None Demo.w0
           (Demo.print_frames [Demo.frame_a]) [Demo.frame_a]
           (generic_descriptors Demo.E_fail 0.125%float)).
  - vm_compute. reflexivity.
  - vm_compute. reflexivity.
  - exists 0.125%float. split; [vm_compute; reflexivity | reflexivity].
  - vm_compute. reflexivity.
Defined.

(** X6: one call of [refit_generic] on readable inputs touches five names
    only: [GAP.xml], the backup name, [train.xyz] and the two capture names.
    Any other file is handed to the fitting tool as it was, and is after the
    call as the tool left it, whatever the exit status. *)
Theorem X6_other_files_untouched (E : env) (state : HybridMD) (d s : option string)
    (w : world) (text : string) (from_file : list Atoms) (descr p : string) :
  let frames := from_file ++ previous_data state (prev_calls w) in
  let cmd := fit_str (sigma_or_default s) descr in
  let cwd := fit_cwd E w frames in
  let t := ticks_after_backup w in
  fs w !! xyz_filename state = Some text ->
  xyz_parse E text = Ok from_file ->
  descriptor_is E d frames descr ->
  p <> "GAP.xml" -> p <> backup_name E w -> p <> "train.xyz" ->
  p <> stdout_name E t -> p <> stderr_name E (S t) ->
  cwd !! p = fs w !! p
  /\ fs (snd (refit_generic E state d s w)) !! p = fs_after (shell E cmd cwd) !! p.
Proof.
  intros frames cmd cwd t Hfile Hparse Hd Hgp Hbackup Htrain Hout Herr.
  split; [by apply fit_cwd_other|].
  by apply (final_fs_other E state d s w text from_file descr p).
Qed.

Lemma X6_other_files_untouched_witness :
  fit_cwd Demo.E Demo.w_model ([Demo.frame_a] ++ [Demo.frame_b]) !! "frames.xyz"
    = fs Demo.w_model !! "frames.xyz"
  /\ fs (snd (refit_generic Demo.E Demo.st_default None None Demo.w_model)) !! "frames.xyz"
     = fs_after
         (Demo.fitting_tool 0
            (fit_str "0.005 0.050 0.1 1.0" (generic_descriptors Demo.E 0.125%float))
            (fit_cwd Demo.E Demo.w_model ([Demo.frame_a] ++ [Demo.frame_b])))
       !! "frames.xyz".
Proof.
  apply (X6_other_files_untouched Demo.E Demo.st_default None None Demo.w_model
           (Demo.print_frames [Demo.frame_a]) [Demo.frame_a]
           (generic_descriptors Demo.E 0.125%float) "frames.xyz").
  - vm_compute. reflexivity.
  - vm_compute. reflexivity.
  - exists 0.125%float. split; [vm_compute; reflexivity | reflexivity].
  - discriminate.
  - discriminate.
  - discriminate.
  - discriminate.
  - discriminate.
Defined.

(** X7: backups add up when the clock moves on. After a call that found a
    model, and after a second call whose backup name (its clock reading) is
    another one, the first model is still under the first backup name,
    provided the fitting tool leaves that file alone; this holds whatever the
    exit status of either fit. *)
Theorem X7_backups_accumulate (E : env) (state : HybridMD)
    (d s d' s' : option string) (w : world)
    (text text1 : string) (from_file from_file1 : list Atoms)
    (descr descr1 model : string) :
  let w1 := snd (refit_generic E state d s w) in
  let w2 := snd (refit_generic E state d' s' w1) in
  fs w !! xyz_filename state = Some text ->
  xyz_parse E text = Ok from_file ->
  descriptor_is E d (from_file ++ previous_data state (prev_calls w)) descr ->
  fs w !! "GAP.xml" = Some model ->
  fs w1 !! xyz_filename state = Some text1 ->
  xyz_parse E text1 = Ok from_file1 ->
  descriptor_is E d' (from_file1 ++ previous_data state (prev_calls w1)) descr1 ->
  tool_keeps E (backup_name E w) ->
  backup_name E w1 <> backup_name E w ->
  fs w1 !! backup_name E w = Some model
  /\ fs w2 !! backup_name E w = Some model.
Proof.
  intros w1 w2 Hfile Hparse Hd Hmodel Hfile1 Hparse1 Hd1 Hkeeps Hfresh.
  assert (H1 : fs w1 !! backup_name E w = Some model).
  { unfold w1.
    rewrite (final_fs_other E state d s w text from_file descr (backup_name E w)
               Hfile Hparse Hd).
    - rewrite Hkeeps. by apply fit_cwd_backup.
    - apply not_eq_sym, stdout_name_not_backup.
    - apply not_eq_sym, stderr_name_not_backup. }
  split; [exact H1|]. unfold w2.
  rewrite (final_fs_other E state d' s' w1 text1 from_file1 descr1 (backup_name E w)
             Hfile1 Hparse1 Hd1).
  - rewrite Hkeeps, fit_cwd_other; [exact H1 | | by apply not_eq_sym |].
    + apply backup_name_not_model.
    + apply backup_name_not_train.
  - apply not_eq_sym, stdout_name_not_backup.
  - apply not_eq_sym, stderr_name_not_backup.
Qed.

Lemma X7_backups_accumulate_witness :
  let w1 := snd (refit_generic Demo.E Demo.st_default None None Demo.w_first) in
  let w2 := snd (refit_generic Demo.E Demo.st_default None None w1) in
  fs w1 !! backup_name Demo.E Demo.w_first = Some "model 1"
  /\ fs w2 !! backup_name Demo.E Demo.w_first = Some "model 1".
Proof.
  apply (X7_backups_accumulate Demo.E Demo.st_default None None None None Demo.w_first
           (Demo.print_frames [Demo.frame_a]) (Demo.print_frames [Demo.frame_a])
           [Demo.frame_a] [Demo.frame_a]
           (generic_descriptors Demo.E 0.125%float)
           (generic_descriptors Demo.E
              (np_std Demo.E [(-1.0)%float; (-2.0)%float; (-1.5)%float] / 4)%float)
           "model 1").
  - vm_compute. reflexivity.
  - vm_compute. reflexivity.
  - exists 0.125%float. split; [vm_compute; reflexivity | reflexivity].
  - vm_compute. reflexivity.
  - vm_compute. reflexivity.
  - vm_compute. reflexivity.
  - exists (np_std Demo.E [(-1.0)%float; (-2.0)%float; (-1.5)%float] / 4)%float.
    split; [vm_compute; reflexivity | reflexivity].
  - intros cmd cwd. unfold Demo.E, Demo.environment, shell, Demo.fitting_tool.
    cbn [decide]. apply lookup_insert_ne. apply not_eq_sym, backup_name_not_model.
  - vm_compute. discriminate.
Defined.

(** X8: [refit_generic] never writes the model file itself: none of its
    writes goes to [GAP.xml]. So when the fitting tool does not produce that
    file, there is no current model after the call, even if there was one
    before; the previous one is under its backup name only. *)
Theorem X8_model_comes_from_the_tool (E : env) (state : HybridMD) (d s : option string)
    (w : world) (text : string) (from_file : list Atoms) (descr : string) :
  let frames := from_file ++ previous_data state (prev_calls w) in
  let cmd := fit_str (sigma_or_default s) descr in
  let cwd := fit_cwd E w frames in
  let w' := snd (refit_generic E state d s w) in
  fs w !! xyz_filename state = Some text ->
  xyz_parse E text = Ok from_file ->
  descriptor_is E d frames descr ->
  List.filter (writes_to "GAP.xml") (effects_since w w') = []
  /\ (fs_after (shell E cmd cwd) !! "GAP.xml" = cwd !! "GAP.xml" ->
      fs w' !! "GAP.xml" = None).
Proof.
  intros frames cmd cwd w' Hfile Hparse Hd. unfold w'. split.
  - rewrite (refit_generic_effects E state d s w text from_file descr Hfile Hparse Hd).
    unfold fit_events, backup_events, capture_events.
    destruct (fs w !! gp_name), (decide (_ = 0%Z));
      cbn [app List.filter writes_to];
      rewrite ?(bool_decide_eq_false_2 _ (stdout_name_not_model E _)),
              ?(bool_decide_eq_false_2 _ (stderr_name_not_model E _));
      reflexivity.
  - intros Hkept.
    rewrite (final_fs_other E state d s w text from_file descr "GAP.xml" Hfile Hparse Hd).
    + fold frames cmd cwd. rewrite Hkept. apply fit_cwd_model_gone.
    + apply not_eq_sym, (stdout_name_not_model E).
    + apply not_eq_sym, (stderr_name_not_model E).
Qed.

Lemma X8_model_comes_from_the_tool_witness :
  List.filter (writes_to "GAP.xml")
    (effects_since Demo.w_model
       (snd (refit_generic Demo.E_fail Demo.st_default None None Demo.w_model))) = []
  /\ fs (snd (refit_generic Demo.E_fail Demo.st_default None None Demo.w_model)) !! "GAP.xml"
     = None.
Proof.
  destruct (X8_model_comes_from_the_tool Demo.E_fail Demo.st_default None None Demo.w_model
              (Demo.print_frames [Demo.frame_a]) [Demo.frame_a]
              (generic_descriptors Demo.E_fail 0.125%float))
    as [Hwrites Hgone].
  - vm_compute. reflexivity.
  - vm_compute. reflexivity.
  - exists 0.125%float. split; [vm_compute; reflexivity | reflexivity].
  - split; [exact Hwrites|]. apply Hgone. reflexivity.
Defined.

(** ** Further properties of the resolver: how a name is taken apart *)

Section Names.

Lemma append_assoc (a b c : string) : (a +:+ b) +:+ c = a +:+ (b +:+ c).
Proof.
  induction a as [|x a IH]; [done|].
  change (String x ((a +:+ b) +:+ c) = String x (a +:+ (b +:+ c))). by rewrite IH.
Qed.

(** No part of a split contains the separator. *)
Lemma split_parts_free (sep : ascii) (s : string) :
  Forall (fun part => PyStr.free_of sep part = true) (PyStr.split sep s).
Proof.
  induction s as [|c s IH]; [by repeat constructor|].
  rewrite split_cons. destruct (Ascii.eqb c sep) eqn:Hc.
  - by constructor.
  - destruct (PyStr.split sep s) as [|hd tl]; [by repeat (constructor; cbn; rewrite ?Hc)|].
    apply Forall_cons in IH as [Hhd Htl]. constructor; [|done].
    cbn. by rewrite Hc, Hhd.
Qed.

(** A split with a single part means there was no separator. *)
Lemma split_single (sep : ascii) (s x : string) :
  PyStr.split sep s = [x] -> PyStr.free_of sep s = true.
Proof.
  revert x. induction s as [|c s IH]; intros x; [done|].
  rewrite split_cons. pose proof (split_not_nil sep s) as Hne.
  destruct (Ascii.eqb c sep) eqn:Hc.
  - destruct (PyStr.split sep s); [done|discriminate].
  - destruct (PyStr.split sep s) as [|hd tl] eqn:Hsplit; [done|].
    intros Heq. injection Heq as _ ->.
    cbn. by rewrite Hc, (IH hd).
Qed.

Lemma join_app_last (sep : string) (l : list string) (x : string) :
  l <> [] -> PyStr.join sep (l ++ [x]) = PyStr.join sep l +:+ sep +:+ x.
Proof.
  unfold PyStr.join. induction l as [|a l IH]; [done|]. intros _.
  destruct l as [|b l]; [done|].
  change (String.concat sep ((a :: b :: l) ++ [x]))
    with (a +:+ sep +:+ String.concat sep ((b :: l) ++ [x])).
  rewrite IH by done.
  change (String.concat sep (a :: b :: l)) with (a +:+ sep +:+ String.concat sep (b :: l)).
  by rewrite !append_assoc.
Qed.

Lemma last_item_free (sep : ascii) (l : list string) :
  Forall (fun part => PyStr.free_of sep part = true) l ->
  PyStr.free_of sep (PyStr.last_item l) = true.
Proof.
  unfold PyStr.last_item. induction 1 as [|a l Ha Hl IH]; [done|].
  destruct l; [exact Ha | exact IH].
Qed.

Lemma module_name_of_free (name : string) :
  PyStr.free_of "." name = true -> module_name_of name = "".
Proof.
  intros Hfree. unfold module_name_of. by rewrite (split_free _ _ Hfree).
Qed.

End Names.

(** X9: a name without a dot has no module path: lines 38-43 import the
    empty path, and [refit] raises [ValueError] before anything is read or
    imported, whatever modules exist. *)
Theorem X9_bare_function_name (E : env) (state : HybridMD) (w : world) (name : string) :
  refit_function_name state = Some name ->
  PyStr.free_of "." name = true ->
  module_name_of name = ""
  /\ refit E state w = (Raise (ValueError "Empty module name"), w).
Proof.
  intros Hname Hfree. split; [by apply module_name_of_free|].
  unfold refit. rewrite Hname. cbv zeta. rewrite (module_name_of_free _ Hfree).
  erewrite bind_raise; reflexivity.
Qed.

Lemma X9_bare_function_name_witness :
  module_name_of "refit_fast" = ""
  /\ refit Demo.E Demo.st_bare Demo.w_model
     = (Raise (ValueError "Empty module name"), Demo.w_model).
Proof.
  apply (X9_bare_function_name Demo.E Demo.st_bare Demo.w_model "refit_fast").
  - reflexivity.
  - reflexivity.
Defined.

(** X10: lines 38-39 take a name apart without loss. The function name
    never contains a dot; a name with a dot is its module path, a dot and
    its function name; a name without a dot is its own function name, with
    an empty module path. *)
Theorem X10_name_round_trip (name : string) :
  PyStr.free_of "." (function_name_of name) = true
  /\ (PyStr.free_of "." name = false ->
      name = module_name_of name +:+ "." +:+ function_name_of name)
  /\ (PyStr.free_of "." name = true ->
      module_name_of name = "" /\ function_name_of name = name).
Proof.
  split; [apply last_item_free, split_parts_free|]. split.
  - intros Hdot. unfold module_name_of, function_name_of, PyStr.but_last, PyStr.last_item.
    pose proof (split_not_nil "." name) as Hne.
    pose proof (app_removelast_last "" Hne) as Hparts.
    destruct (removelast (PyStr.split "." name)) as [|a l] eqn:Hfront.
    + rewrite (split_single _ _ _ Hparts) in Hdot. discriminate.
    + rewrite <- (join_app_last "." (a :: l)) by done.
      rewrite <- Hparts. symmetry. apply join_split.
  - intros Hfree. split; [by apply module_name_of_free|].
    unfold function_name_of. by rewrite (split_free _ _ Hfree).
Qed.

Lemma X10_name_round_trip_witness :
  ("hybrid_md.refit.refit_turbo_si_c"
   = module_name_of "hybrid_md.refit.refit_turbo_si_c" +:+ "."
     +:+ function_name_of "hybrid_md.refit.refit_turbo_si_c")
  /\ (module_name_of "refit_fast" = "" /\ function_name_of "refit_fast" = "refit_fast").
Proof.
  split.
  - apply (proj1 (proj2 (X10_name_round_trip "hybrid_md.refit.refit_turbo_si_c"))).
    vm_compute. reflexivity.
  - apply (proj2 (proj2 (X10_name_round_trip "refit_fast"))).
    vm_compute. reflexivity.
Defined.

(** X11: the handler of line 44 catches [ModuleNotFoundError] only. Any
    other error of the import leaves [refit] as it is; so a relative module
    path (one that starts with a dot) ends in the [TypeError] of
    [importlib], not in the [RuntimeError] of line 45. *)
Theorem X11_other_import_errors (E : env) (state : HybridMD) (w : world) (name : string) :
  refit_function_name state = Some name ->
  (forall e w1,
     importlib_import_module E (module_name_of name) w = (Raise e, w1) ->
     isinstance e ClsModuleNotFoundError = false ->
     refit E state w = (Raise e, w1))
  /\ (PyStr.startswith "." (module_name_of name) = true ->
      refit E state w
      = (Raise (TypeError
                  ("the 'package' argument is required to perform a relative import for '"
                   +:+ module_name_of name +:+ "'")), w)).
Proof.
  intros Hname.
  assert (Hgeneral : forall e w1,
     importlib_import_module E (module_name_of name) w = (Raise e, w1) ->
     isinstance e ClsModuleNotFoundError = false ->
     refit E state w = (Raise e, w1)).
  { intros e w1 Himp Hclass. unfold refit. rewrite Hname. cbv zeta.
    erewrite bind_raise; [reflexivity|].
    unfold try_except. by rewrite Himp, Hclass. }
  split; [exact Hgeneral|].
  intros Hrel. apply Hgeneral; [|reflexivity].
  unfold importlib_import_module.
  destruct (decide (module_name_of name = "")) as [Hempty|_].
  - rewrite Hempty in Hrel. discriminate.
  - by rewrite Hrel.
Qed.

Lemma X11_other_import_errors_witness :
  refit Demo.E Demo.st_relative Demo.w_model
  = (Raise (TypeError
              ("the 'package' argument is required to perform a relative import for '"
               +:+ ".refit" +:+ "'")), Demo.w_model).
Proof.
  pose proof (proj2 (X11_other_import_errors Demo.E Demo.st_relative Demo.w_model
                       ".refit.refit_fast" eq_refl)) as H.
  replace (module_name_of ".refit.refit_fast") with ".refit" in H
    by (vm_compute; reflexivity).
  apply H. reflexivity.
Defined.

(** X12: for readable inputs with a computable [delta],
    [refit_turbo_si_c] is [refit_generic] with its own descriptor string and
    sigma, started in the world its first reading left; it returns what
    [refit_generic] returns: [None] after a fit with status zero, the
    [CalledProcessError] of the fit otherwise. *)
Theorem X12_turbo_delegates (E : env) (state : HybridMD) (w : world)
    (text : string) (from_file : list Atoms) (delta : float) :
  let w1 := after_first_reading state w in
  let descr := turbo_descriptors E delta in
  let cmd := fit_str "0.005 0.050 0.1 1.0" descr in
  let proc :=
    shell E cmd (fit_cwd E w1 (from_file ++ previous_data state (S (prev_calls w)))) in
  fs w !! xyz_filename state = Some text ->
  xyz_parse E text = Ok from_file ->
  energy_delta E (from_file ++ previous_data state (prev_calls w)) = Ok delta ->
  refit_turbo_si_c E state w
    = refit_generic E state (Some descr) (Some "0.005 0.050 0.1 1.0") w1
  /\ fst (refit_turbo_si_c E state w)
     = if decide (returncode proc = 0%Z) then Ok PyNone
       else Raise (CalledProcessError (returncode proc) cmd (stdout proc) (stderr proc)).
Proof.
  intros w1 descr cmd proc Hfile Hparse Hdelta.
  pose proof (refit_turbo_si_c_delegates E state w text from_file delta
                Hfile Hparse Hdelta) as Hdel.
  split; [exact Hdel|]. rewrite Hdel.
  fold (turbo_descriptors E delta). fold descr. fold (after_first_reading state w). fold w1.
  destruct (decide (returncode proc = 0%Z)) as [Hrc|Hrc].
  - by rewrite (refit_generic_fit_succeeds E state (Some descr) (Some turbo_default_sigma)
                  w1 text from_file descr Hfile Hparse eq_refl Hrc).
  - by rewrite (refit_generic_fit_fails E state (Some descr) (Some turbo_default_sigma)
                  w1 text from_file descr Hfile Hparse eq_refl Hrc).
Qed.

Lemma X12_turbo_delegates_witness :
  refit_turbo_si_c Demo.E_fail Demo.st_default Demo.w_model
    = refit_generic Demo.E_fail Demo.st_default
        (Some (turbo_descriptors Demo.E_fail 0.125%float)) (Some "0.005 0.050 0.1 1.0")
        (after_first_reading Demo.st_default Demo.w_model)
  /\ fst (refit_turbo_si_c Demo.E_fail Demo.st_default Demo.w_model)
     = Raise (CalledProcessError 1
                (fit_str "0.005 0.050 0.1 1.0" (turbo_descriptors Demo.E_fail 0.125%float))
                "" "gap_fit: fit failed").
Proof.
  apply (X12_turbo_delegates Demo.E_fail Demo.st_default Demo.w_model
           (Demo.print_frames [Demo.frame_a]) [Demo.frame_a] 0.125%float).
  - vm_compute. reflexivity.
  - vm_compute. reflexivity.
  - vm_compute. reflexivity.
Defined.
